(** * uv_vis_kinetics: the fitting pipeline of scripts/dataPrep.py

    A shallow embedding of the script that learns two Gaussian-sum peak
    shapes (bromine, sodium tribromide), calibrates the tribromide
    amplitude against concentration and predicts concentrations for a
    spectral time series.

    Conventions of the embedding.
    - A NumPy float is a real number ([R]); rounding, infinities and NaN
      are outside the model.  Division is Rocq's total division on [R].
    - A one-dimensional NumPy array is a [list R].
    - A Python exception is a constructor of [exn]; code that may raise
      returns a [result].
    - [scipy.optimize.curve_fit] is an external solver: it is a parameter
      of the development ([Solver]), never a definition.
    - Plotting changes no number.  Of the plotting calls only the one that
      can raise is modelled: [plot(xvals, yvals)] inside the two amplitude
      loops, where the wavelengths come from the first training set and the
      absorbances from another frame, so the two arrays can differ in
      length.  The other calls plot arrays taken from one frame, or a curve
      computed from the wavelengths it is plotted against. *)

From Stdlib Require Import Reals Lra List Arith Lia.
Import ListNotations.
Open Scope R_scope.

(** ** Exceptions and results *)

Inductive exn : Set :=
| IndexError    (* an index past the end of an array *)
| KeyError      (* a column label the frame does not have *)
| ValueError    (* unpacking an array of the wrong length *)
| TypeError     (* raised by the solver on improper input *)
| RuntimeError. (* raised by the solver: optimal parameters not found *)

Inductive result (A : Type) : Type :=
| Ok (a : A)
| Raise (e : exn).
Arguments Ok {A} a.
Arguments Raise {A} e.

Definition bind {A B : Type} (c : result A) (k : A -> result B) : result B :=
  match c with
  | Ok a => k a
  | Raise e => Raise e
  end.

Definition fmap {A B : Type} (f : A -> B) (c : result A) : result B :=
  bind c (fun a => Ok (f a)).

Declare Scope result_scope.
Delimit Scope result_scope with result.
Notation "x <- c ;; k" := (bind c (fun x => k))
  (at level 61, c at next level, right associativity) : result_scope.
Open Scope result_scope.

(** ** Arrays *)

Module Array.

(** [a[i]] for an index that is in range.  The arrays the script reads by
    index are answers of the solver, which have as many entries as the fitted
    function has parameters ([curve_fit_shape], [trained_shapes]); the
    theorems that read them assume those lengths. *)
Definition get (a : list R) (i : nat) : R := nth i a 0.

(** [a[i] = v]: the array keeps its length; an index past the end raises
    [IndexError]. *)
Fixpoint set (a : list R) (i : nat) (v : R) : result (list R) :=
  match a, i with
  | [], _ => Raise IndexError
  | _ :: a', O => Ok (v :: a')
  | x :: a', S i' => a'' <- set a' i' v ;; Ok (x :: a'')
  end.

(** [np.zeros(n)] *)
Definition zeros (n : nat) : list R := repeat 0 n.

(** [np.ones(n)], the initial guess [curve_fit] takes when it gets none. *)
Definition ones (n : nat) : list R := repeat 1 n.

(** [a[lo:hi]] for non-negative bounds: the elements at positions
    [lo <= k < hi], as many as exist. *)
Definition slice (a : list R) (lo hi : nat) : list R :=
  firstn (hi - lo) (skipn lo a).

(** [x > y] on floats, as a boolean. *)
Definition gtb (x y : R) : bool := if Rlt_dec y x then true else false.

(** [np.argwhere(a > bound)[0][0]]: the position of the first element
    above [bound]; indexing the empty answer raises [IndexError]. *)
Fixpoint first_above_from (a : list R) (bound : R) (i : nat) : result nat :=
  match a with
  | [] => Raise IndexError
  | x :: a' => if gtb x bound then Ok i else first_above_from a' bound (S i)
  end.

Definition first_above (a : list R) (bound : R) : result nat :=
  first_above_from a bound 0.

(** [a[i]] as NumPy evaluates it: an index past the end raises
    [IndexError]. *)
Definition item (a : list R) (i : nat) : result R :=
  match nth_error a i with
  | Some x => Ok x
  | None => Raise IndexError
  end.

End Array.

Notation "a .[ i ]" := (Array.get a i) (at level 1, left associativity,
  format "a .[ i ]").

(** ** Peak shapes *)

(** Modelled from the spec: [spectralFunctions.gaussian] (imported as
    [spec.gaussian]) is not among the sources.  The spec gives
    [height * exp(-(wavelength-center)^2 / (2*width^2))], which is also the
    peak term that [gauss5] and [gauss5_scale] below write out inline
    (lemmas [gauss5_peaks] and [gauss5_scale_peaks]). *)
Definition gaussian (wavelength height center width : R) : R :=
  height * exp ((- ((wavelength - center) ^ 2)) / (2 * width ^ 2)).

(** Modelled from the spec: [spectralFunctions.gaussian3] is not among the
    sources.  The script calls it with ten parameters, plots the triples
    0-2, 3-5 and 6-8 as the three peaks, and the spec names the tenth "a
    baseline offset parameter": three peaks plus a constant. *)
Definition gaussian3 (x h1 c1 w1 h2 c2 w2 h3 c3 w3 offset : R) : R :=
  gaussian x h1 c1 w1 + gaussian x h2 c2 w2 + gaussian x h3 c3 w3 + offset.

(** Modelled from the spec: [spectralFunctions.linear] is not among the
    sources.  The spec's calibration line is
    [amplitudeNaBr3 = slope*concNaBr3 + intercept]; the script passes
    [line[0]], [line[1]] in that order. *)
Definition linear (x slope intercept : R) : R := slope * x + intercept.

(** [gauss5], with the global [Br2opt] it reads made a parameter. *)
Definition gauss5 (Br2opt : list R) (WL h1 h2 l2 w2 h3 l3 w3 : R) : R :=
  h1 * (Br2opt.[0] * exp ((- ((WL - Br2opt.[1]) ^ 2)) / (2 * Br2opt.[2] ^ 2)) +
        Br2opt.[3] * exp ((- ((WL - Br2opt.[4]) ^ 2)) / (2 * Br2opt.[5] ^ 2)) +
        Br2opt.[6] * exp ((- ((WL - Br2opt.[7]) ^ 2)) / (2 * Br2opt.[8] ^ 2))) +
  h2 * exp ((- ((WL - l2) ^ 2)) / (2 * w2 ^ 2)) +
  h3 * exp ((- ((WL - l3) ^ 2)) / (2 * w3 ^ 2)).

(** [gauss5_scale], with the globals [Br2opt] and [g5opt] made parameters. *)
Definition gauss5_scale (Br2opt g5opt : list R) (WL hBr2 hNaBr3 : R) : R :=
  hBr2 * (Br2opt.[0] * exp ((- ((WL - Br2opt.[1]) ^ 2)) / (2 * Br2opt.[2] ^ 2)) +
          Br2opt.[3] * exp ((- ((WL - Br2opt.[4]) ^ 2)) / (2 * Br2opt.[5] ^ 2)) +
          Br2opt.[6] * exp ((- ((WL - Br2opt.[7]) ^ 2)) / (2 * Br2opt.[8] ^ 2))) +
  hNaBr3 * (g5opt.[1] * exp ((- ((WL - g5opt.[2]) ^ 2)) / (2 * g5opt.[3] ^ 2)) +
            g5opt.[4] * exp ((- ((WL - g5opt.[5]) ^ 2)) / (2 * g5opt.[6] ^ 2))).

(** ** The spec's vocabulary for reference models *)

Record GaussianPeak : Type := mkPeak { height : R; center : R; width : R }.

Definition ReferenceModel : Type := list GaussianPeak.

(** The spec's [gaussianSum]: the sum of [gaussian] over all peaks. *)
Definition gaussianSum (wl : R) (peaks : ReferenceModel) : R :=
  fold_left (fun acc p => acc + gaussian wl (height p) (center p) (width p))
            peaks 0.

(** The frozen bromine model: the nine peak parameters of the first fit. *)
Definition BromineReference (Br2opt : list R) : ReferenceModel :=
  [ mkPeak Br2opt.[0] Br2opt.[1] Br2opt.[2];
    mkPeak Br2opt.[3] Br2opt.[4] Br2opt.[5];
    mkPeak Br2opt.[6] Br2opt.[7] Br2opt.[8] ].

(** The frozen tribromide model: the two free peaks of the second fit. *)
Definition TribromideReference (g5opt : list R) : ReferenceModel :=
  [ mkPeak g5opt.[1] g5opt.[2] g5opt.[3];
    mkPeak g5opt.[4] g5opt.[5] g5opt.[6] ].

(** The spec's two-parameter scaling model. *)
Definition scaling_model_spec
    (bromine tribromide : ReferenceModel) (wl amplitudeBr2 amplitudeNaBr3 : R) : R :=
  amplitudeBr2 * gaussianSum wl bromine +
  amplitudeNaBr3 * gaussianSum wl tribromide.

(** ** The solver *)

(** A model function handed to [curve_fit]: the number of parameters the
    solver reads off its signature, and the call [f(x, *params)]. *)
Record model_fn : Type := mkModel {
  nparams : nat;
  call : R -> list R -> R
}.

(** [scipy.optimize.curve_fit(f, xdata, ydata, p0)], first component of its
    answer.  [p0 = None] stands for the call without an initial guess.  The
    solver either returns the optimal parameters, as many as [f] has, or
    raises. *)
Record Solver : Type := mkSolver {
  curve_fit : model_fn -> list R -> list R -> option (list R) -> result (list R);
  curve_fit_shape :
    forall f xdata ydata p0 popt,
      curve_fit f xdata ydata p0 = Ok popt -> length popt = nparams f
}.

Definition gaussian3_fn : model_fn :=
  mkModel 10 (fun x p =>
    gaussian3 x p.[0] p.[1] p.[2] p.[3] p.[4] p.[5] p.[6] p.[7] p.[8] p.[9]).

Definition gauss5_fn (Br2opt : list R) : model_fn :=
  mkModel 7 (fun WL p =>
    gauss5 Br2opt WL p.[0] p.[1] p.[2] p.[3] p.[4] p.[5] p.[6]).

Definition gauss5_scale_fn (Br2opt g5opt : list R) : model_fn :=
  mkModel 2 (fun WL p => gauss5_scale Br2opt g5opt WL p.[0] p.[1]).

Definition linear_fn : model_fn :=
  mkModel 2 (fun x p => linear x p.[0] p.[1]).

(** ** Data frames *)

(** A transposed instrument export: the row labels after the first are the
    wavelengths, the first row holds the capture times, and column [i]
    (labelled [0..n-1]) is spectrum [i]: its time, then one absorbance per
    wavelength. *)
Record DataFrame : Type := mkFrame {
  index_tail : list R;          (* df.index.values[1:].astype(float) *)
  columns : list (R * list R)   (* df[i].iloc[0], df[i][1:].values *)
}.

(** [df.iloc[[0]].values[0]] *)
Definition first_row (df : DataFrame) : list R := map fst (columns df).

(** [df[i]]: the column labelled [i]. *)
Definition column (df : DataFrame) (i : nat) : result (R * list R) :=
  match nth_error (columns df) i with
  | Some c => Ok c
  | None => Raise KeyError
  end.

(** ** Constants of the script *)

Definition p0_Br2 : list R :=
  [3.0; 280.0; 30.0;
   0.7; 390.0; 20.0;
   0.2; 460.0; 20.0; 0.02].

Definition NaBr3_p0 : list R :=
  [0.3;
   1.0; 400; 20;
   2.5; 340; 20].

Definition Br2_conc_i : R := 0.00342.

(** ** The script *)

(** A Python [for i in range(n)] over a state that the body may fail to
    produce: the first exception ends the loop. *)
Fixpoint for_range {St : Type} (body : nat -> St -> result St)
    (range : list nat) (st : St) : result St :=
  match range with
  | [] => Ok st
  | i :: range' => st' <- body i st ;; for_range body range' st'
  end.

(** The values the script leaves in its globals. *)
Record Trained : Type := mkTrained {
  WLs : list R;
  Br2opt : list R;
  g5opt : list R;
  hBr2 : list R;
  hNaBr3 : list R;
  NaBr3_conc : list R;
  line : list R
}.

(** [plt.plot(x, y, ...)] and [ax1.plot(x, y, ...)]: Matplotlib raises
    [ValueError] when the two arrays differ in length. *)
Definition plot (x y : list R) : result unit :=
  if Nat.eqb (length x) (length y) then Ok tt else Raise ValueError.

(** [NaBr3_conc = Br2_conc_i * (1.0 - hBr2)], element by element. *)
Definition compute_NaBr3_conc (hBr2 : list R) : list R :=
  map (fun h => Br2_conc_i * (1.0 - h)) hBr2.

Section Script.

Variable S : Solver.

(** FIT RAW BROMINE SPECTRUM: window 320-650 nm of the first spectrum. *)
Definition fit_Br2 (WLs : list R) (train1 : DataFrame) : result (list R) :=
  L1 <- Array.first_above WLs 320 ;;
  L2 <- Array.first_above WLs 650 ;;
  c <- column train1 0 ;;
  curve_fit S gaussian3_fn
    (Array.slice WLs L1 L2) (Array.slice (snd c) L1 L2) (Some p0_Br2).

(** FIT SODIUM TRIBROMIDE SPECTRUM: window 360-650 nm of the last
    spectrum of the first training set. *)
Definition fit_NaBr3 (WLs Br2opt : list R) (train1 : DataFrame)
    : result (list R) :=
  L1 <- Array.first_above WLs 360 ;;
  L2 <- Array.first_above WLs 650 ;;
  c <- column train1 (length (first_row train1) - 1) ;;
  curve_fit S (gauss5_fn Br2opt)
    (Array.slice WLs L1 L2) (Array.slice (snd c) L1 L2) (Some NaBr3_p0).

(** One turn of the two amplitude loops (TRAIN and [get_concs] have the
    same body): fit [gauss5_scale] to spectrum [i], unpack the answer, store
    the two amplitudes at position [i] and plot the spectrum against the
    wavelengths.  (The fitted curve, computed from [xvals], is plotted
    against [xvals] and cannot raise.) *)
Definition fit_amplitudes_body (WLs Br2opt g5opt : list R)
    (dataset : DataFrame) (L1 L2 : nat)
    (i : nat) (st : list R * list R) : result (list R * list R) :=
  c <- column dataset i ;;
  popt <- curve_fit S (gauss5_scale_fn Br2opt g5opt)
            (Array.slice WLs L1 L2) (Array.slice (snd c) L1 L2) None ;;
  match popt with
  | [a; b] =>
      h1 <- Array.set (fst st) i a ;;
      h2 <- Array.set (snd st) i b ;;
      _ <- plot (Array.slice WLs L1 L2) (Array.slice (snd c) L1 L2) ;;
      Ok (h1, h2)
  | _ => Raise ValueError
  end.

(** The loop itself, from two arrays of zeros. *)
Definition fit_amplitudes (WLs Br2opt g5opt : list R)
    (dataset : DataFrame) (L1 L2 n : nat) : result (list R * list R) :=
  for_range (fit_amplitudes_body WLs Br2opt g5opt dataset L1 L2)
    (seq 0 n) (Array.zeros n, Array.zeros n).

(** [line, cov = curve_fit(spec.linear, NaBr3_conc, hNaBr3)] *)
Definition fit_line (NaBr3_conc hNaBr3 : list R) : result (list R) :=
  curve_fit S linear_fn NaBr3_conc hNaBr3 None.

(** The module body up to the calibration line. *)
Definition train (train1 train2 : DataFrame) : result Trained :=
  let WLs := index_tail train1 in
  Br2opt <- fit_Br2 WLs train1 ;;
  g5opt <- fit_NaBr3 WLs Br2opt train1 ;;
  L1 <- Array.first_above WLs 360 ;;
  L2 <- Array.first_above WLs 650 ;;
  amps <- fit_amplitudes WLs Br2opt g5opt train2 L1 L2
            (length (first_row train2)) ;;
  let NaBr3_conc := compute_NaBr3_conc (fst amps) in
  line <- fit_line NaBr3_conc (snd amps) ;;
  Ok (mkTrained WLs Br2opt g5opt (fst amps) (snd amps) NaBr3_conc line).

(** PREDICT *)
Definition get_concs (G : Trained) (dataset : DataFrame)
    : result (list R * list R * list R) :=
  let time := map (fun t => t / 60) (first_row dataset) in
  L1 <- Array.first_above (WLs G) 360 ;;
  L2 <- Array.first_above (WLs G) 650 ;;
  amps <- fit_amplitudes (WLs G) (Br2opt G) (g5opt G) dataset L1 L2
            (length time) ;;
  Ok (time,
      map (fun h => Br2_conc_i * h) (fst amps),
      map (fun h => h / (line G).[0]) (snd amps)).

End Script.

(** ** Specification-side views of the loops *)

(** Python-style traversal that stops at the first exception. *)
Fixpoint mapM {A B : Type} (f : A -> result B) (l : list A) : result (list B) :=
  match l with
  | [] => Ok []
  | x :: l' => y <- f x ;; ys <- mapM f l' ;; Ok (y :: ys)
  end.

(** What one turn of an amplitude loop computes for one spectrum. *)
Definition scale_fit (S : Solver) (WLs Br2opt g5opt : list R) (L1 L2 : nat)
    (c : R * list R) : result (R * R) :=
  popt <- curve_fit S (gauss5_scale_fn Br2opt g5opt)
            (Array.slice WLs L1 L2) (Array.slice (snd c) L1 L2) None ;;
  match popt with
  | [a; b] =>
      _ <- plot (Array.slice WLs L1 L2) (Array.slice (snd c) L1 L2) ;;
      Ok (a, b)
  | _ => Raise ValueError
  end.

(** The window of a spectrum has as many entries as the window of the
    wavelength axis, so that plotting one against the other does not
    raise. *)
Definition window_matches (WLs : list R) (L1 L2 : nat) (c : R * list R) : bool :=
  Nat.eqb (length (Array.slice WLs L1 L2)) (length (Array.slice (snd c) L1 L2)).

(** A wavelength axis as the spec's data model wants it. *)
Fixpoint strictly_increasing (a : list R) : Prop :=
  match a with
  | [] => True
  | x :: a' =>
      match a' with
      | [] => True
      | y :: _ => x < y /\ strictly_increasing a'
      end
  end.

(** Calibration data the spec calls degenerate: every derived concentration
    is the same number (this covers fewer than two distinct points). *)
Definition degenerate (concs : list R) : Prop :=
  forall x y, In x concs -> In y concs -> x = y.

(** ** Two stand-in solvers and sample frames *)

(** A solver that stops at once and returns its initial guess (the given
    [p0], or ones). *)
Definition guess_fit (f : model_fn) (xdata ydata : list R)
    (p0 : option (list R)) : result (list R) :=
  let p := match p0 with Some p => p | None => Array.ones (nparams f) end in
  if Nat.eqb (length p) (nparams f) then Ok p else Raise ValueError.

Definition guess_solver : Solver :=
  mkSolver guess_fit
    ltac:(intros f x y p0 popt; unfold guess_fit;
          destruct (Nat.eqb _ (nparams f)) eqn:E; intros H;
          [ injection H as <-; now apply Nat.eqb_eq | discriminate H ]).

(** A solver that finds no optimum for a spectrum whose first windowed
    absorbance is above 2, and otherwise behaves like [guess_fit]. *)
Definition stalling_fit (f : model_fn) (xdata ydata : list R)
    (p0 : option (list R)) : result (list R) :=
  if Array.gtb (hd 0 ydata) 2 then Raise RuntimeError
  else guess_fit f xdata ydata p0.

Definition stalling_solver : Solver :=
  mkSolver stalling_fit
    ltac:(intros f x y p0 popt; unfold stalling_fit, guess_fit;
          destruct (Array.gtb _ _); [ discriminate | ];
          destruct (Nat.eqb _ (nparams f)) eqn:E; intros H;
          [ injection H as <-; now apply Nat.eqb_eq | discriminate H ]).

(** Seventeen wavelengths, 300 to 700 nm in steps of 25. *)
Definition sample_WLs : list R :=
  [300; 325; 350; 375; 400; 425; 450; 475; 500;
   525; 550; 575; 600; 625; 650; 675; 700].

(** The same axis with 425 and 400 exchanged. *)
Definition unordered_WLs : list R :=
  [300; 325; 350; 375; 425; 400; 450; 475; 500;
   525; 550; 575; 600; 625; 650; 675; 700].

Definition spectrum_a : list R :=
  [2.50; 1.90; 1.40; 1.00; 0.80; 0.70; 0.55; 0.45; 0.35;
   0.26; 0.18; 0.12; 0.08; 0.05; 0.03; 0.02; 0.01].

Definition spectrum_b : list R :=
  [2.60; 2.10; 1.60; 1.20; 0.95; 0.80; 0.62; 0.50; 0.38;
   0.28; 0.19; 0.13; 0.08; 0.05; 0.03; 0.02; 0.01].

Definition spectrum_c : list R :=
  [2.80; 2.30; 1.80; 1.40; 1.10; 0.90; 0.70; 0.55; 0.41;
   0.30; 0.20; 0.13; 0.09; 0.05; 0.03; 0.02; 0.01].

(** A spectrum that reads 2.40 at 375 nm, the start of the 360-650 window. *)
Definition spectrum_saturated : list R :=
  [3.00; 2.90; 2.70; 2.40; 1.60; 1.10; 0.80; 0.60; 0.44;
   0.31; 0.21; 0.14; 0.09; 0.05; 0.03; 0.02; 0.01].

Definition sample_columns : list (R * list R) :=
  [ (0, spectrum_a); (60, spectrum_b); (120, spectrum_c) ].

Definition sample_frame : DataFrame := mkFrame sample_WLs sample_columns.

Definition unordered_frame : DataFrame := mkFrame unordered_WLs sample_columns.

(** Three spectra of which the second cannot be fitted by
    [stalling_solver]. *)
Definition saturated_frame : DataFrame :=
  mkFrame sample_WLs
    [ (0, spectrum_a); (60, spectrum_saturated); (120, spectrum_c) ].

(** The sample spectra with their capture times in other units. *)
Definition retimed_frame : DataFrame :=
  mkFrame sample_WLs
    [ (0, spectrum_a); (1, spectrum_b); (2, spectrum_c) ].

(** Globals as a training run of [guess_solver] on [sample_frame] leaves
    them. *)
Definition sample_trained : Trained :=
  mkTrained sample_WLs p0_Br2 NaBr3_p0 [1; 1; 1] [1; 1; 1]
    (compute_NaBr3_conc [1; 1; 1]) [1; 1].

(** Globals as a training run of [guess_solver] on [unordered_frame] leaves
    them. *)
Definition unordered_trained : Trained :=
  mkTrained unordered_WLs p0_Br2 NaBr3_p0 [1; 1; 1] [1; 1; 1]
    (compute_NaBr3_conc [1; 1; 1]) [1; 1].

(** ** Writing the results *)

From Stdlib Require String Ascii.
Import String.StringSyntax.
Delimit Scope string_scope with string.

(** Python's [+] on strings. *)
Notation "s +++ t" := (String.append s t) (at level 50, left associativity).

Definition newline : String.string :=
  String.String (Ascii.ascii_of_nat 10) String.EmptyString.

(** The files the script leaves behind, as name and contents; the entry
    written last comes first, and [read_file] returns the first entry of a
    name, so opening a file for writing replaces what the name held. *)
Definition files : Type := list (String.string * String.string).

Definition read_file (fs : files) (name : String.string) : option String.string :=
  match find (fun f => String.eqb (fst f) name) fs with
  | Some f => Some (snd f)
  | None => None
  end.

(** Code that writes files and may raise: the files are kept when it
    raises. *)
Definition io (A : Type) : Type := files -> files * result A.

Definition io_bind {A B : Type} (c : io A) (k : A -> io B) : io B :=
  fun fs =>
    match c fs with
    | (fs', Ok a) => k a fs'
    | (fs', Raise e) => (fs', Raise e)
    end.

(** Code that only computes. *)
Definition io_lift {A : Type} (c : result A) : io A := fun fs => (fs, c).

Declare Scope io_scope.
Delimit Scope io_scope with io.
Notation "x <-- c ;;; k" := (io_bind c (fun x => k))
  (at level 61, c at next level, right associativity) : io_scope.

Section Writing.

(** Python's [str] on a float. *)
Variable str : R -> String.string.

(** The text of one [outfile.write] call of [write_concs]; the three
    arrays are indexed from left to right. *)
Definition row_text (t b n : R) : String.string :=
  str t +++ " "%string +++ str b +++ " "%string +++ str n +++ newline.

Definition row (run_concs : list R * list R * list R) (i : nat)
    : result String.string :=
  t <- Array.item (fst (fst run_concs)) i ;;
  b <- Array.item (snd (fst run_concs)) i ;;
  n <- Array.item (snd run_concs) i ;;
  Ok (row_text t b n).

(** The loop of [write_concs] over an open file: what has been written
    stays in the file when a row raises. *)
Fixpoint write_rows (run_concs : list R * list R * list R)
    (range : list nat) (contents : String.string)
    : String.string * result unit :=
  match range with
  | [] => (contents, Ok tt)
  | i :: range' =>
      match row run_concs i with
      | Ok text => write_rows run_concs range' (contents +++ text)
      | Raise e => (contents, Raise e)
      end
  end.

(** [write_concs]: the file [name + '.txt'] is opened for writing, which
    empties it, and gets one row per entry of [run_concs[0]].  (The source
    indents the body with tabs under a line indented with spaces; it is read
    with the loop inside the [with] block.) *)
Definition write_concs (run_concs : list R * list R * list R)
    (name : String.string) : io unit :=
  fun fs =>
    let (contents, outcome) :=
      write_rows run_concs (seq 0 (length (fst (fst run_concs)))) ""%string in
    ((name +++ ".txt"%string, contents) :: fs, outcome).

Variable S : Solver.

(** The [__main__] block, after the three files have been read and
    transposed: three predictions, then three files. *)
Definition main (G : Trained) (run1_17C run2_25C run3_35C : DataFrame)
    : io unit :=
  (run1_17C_concs <-- io_lift (get_concs S G run1_17C) ;;;
   run2_25C_concs <-- io_lift (get_concs S G run2_25C) ;;;
   run3_35C_concs <-- io_lift (get_concs S G run3_35C) ;;;
   _ <-- write_concs run1_17C_concs "17C_concs"%string ;;;
   _ <-- write_concs run2_25C_concs "25C_concs"%string ;;;
   write_concs run3_35C_concs "35C_concs"%string)%io.

(** The whole file run as a program: training, the prediction for the
    first training set that the module body plots, then [main]. *)
Definition script (train1 train2 run1_17C run2_25C run3_35C : DataFrame)
    : io unit :=
  (G <-- io_lift (train S train1 train2) ;;;
   _ <-- io_lift (get_concs S G train1) ;;;
   main G run1_17C run2_25C run3_35C)%io.

End Writing.

(** ** Specification-side views of the output and of the window *)

(** The rows of three arrays taken together, as many as the shortest
    has. *)
Definition rows_of (run_concs : list R * list R * list R) : list (R * (R * R)) :=
  combine (fst (fst run_concs)) (combine (snd (fst run_concs)) (snd run_concs)).

Definition text_of (str : R -> String.string) (rows : list (R * (R * R)))
    : String.string :=
  fold_right (fun r acc => String.append (row_text str (fst r) (fst (snd r)) (snd (snd r))) acc)
    ""%string rows.

(** A wavelength inside the window [lo < wl <= hi]. *)
Definition in_window (lo hi wl : R) : bool :=
  Array.gtb wl lo && negb (Array.gtb wl hi).

(** A stand-in for [str] that tells no two numbers apart. *)
Definition blank_str (x : R) : String.string := "0.0"%string.

(** * Facts about the embedding *)

(** ** Comparisons and window selection *)

Lemma gtb_true (x y : R) : y < x -> Array.gtb x y = true.
Proof.
  intros H. unfold Array.gtb.
  destruct (Rlt_dec y x); [ reflexivity | contradiction ].
Qed.

Lemma gtb_false (x y : R) : x <= y -> Array.gtb x y = false.
Proof.
  intros H. unfold Array.gtb.
  destruct (Rlt_dec y x); [ lra | reflexivity ].
Qed.

(** Decide every comparison of two numerals in the goal. *)
Ltac eval_gtb :=
  repeat match goal with
    | |- context [Array.gtb ?x ?y] =>
        first [ rewrite (gtb_true x y) by lra | rewrite (gtb_false x y) by lra ]
    end.

(** Run [first_above] on a literal axis. *)
Ltac eval_first_above axis :=
  unfold Array.first_above, axis; cbn [Array.first_above_from];
  eval_gtb; reflexivity.

Lemma first_above_from_Ok (a : list R) (bound : R) :
  forall i k,
    Array.first_above_from a bound i = Ok k ->
    exists pre x post,
      a = pre ++ x :: post /\ k = (i + length pre)%nat /\
      Forall (fun y => y <= bound) pre /\ bound < x.
Proof.
  induction a as [| x a IH]; intros i k H; simpl in H.
  - discriminate H.
  - unfold Array.gtb in H. destruct (Rlt_dec bound x) as [Hx | Hx].
    + injection H as <-. exists [], x, a. simpl.
      repeat split; [ lia | constructor | exact Hx ].
    + apply IH in H as (pre & y & post & -> & -> & Hpre & Hy).
      exists (x :: pre), y, post. simpl.
      repeat split; [ lia | constructor; [ lra | exact Hpre ] | exact Hy ].
Qed.

Lemma first_above_from_Raise (a : list R) (bound : R) :
  forall i e,
    Array.first_above_from a bound i = Raise e ->
    e = IndexError /\ Forall (fun y => y <= bound) a.
Proof.
  induction a as [| x a IH]; intros i e H; simpl in H.
  - injection H as <-. split; [ reflexivity | constructor ].
  - unfold Array.gtb in H. destruct (Rlt_dec bound x) as [Hx | Hx].
    + discriminate H.
    + apply IH in H as [-> Ha]. split; [ reflexivity | ].
      constructor; [ lra | exact Ha ].
Qed.

Lemma first_above_from_Exists (a : list R) (bound : R) :
  forall i, Exists (fun x => bound < x) a ->
            exists k, Array.first_above_from a bound i = Ok k.
Proof.
  induction a as [| x a IH]; intros i H.
  - inversion H.
  - simpl. unfold Array.gtb. destruct (Rlt_dec bound x) as [Hx | Hx].
    + now exists i.
    + inversion H as [? ? Hnow | ? ? Hlater]; subst.
      * contradiction.
      * now apply IH.
Qed.

Lemma first_above_Ok (axis : list R) (bound : R) (k : nat) :
  Array.first_above axis bound = Ok k ->
  bound < axis.[k] /\ (forall j, (j < k)%nat -> axis.[j] <= bound).
Proof.
  intros H.
  apply first_above_from_Ok in H as (pre & x & post & -> & -> & Hpre & Hx).
  simpl. unfold Array.get. split.
  - now rewrite nth_middle.
  - intros j Hj. rewrite app_nth1 by exact Hj.
    rewrite Forall_forall in Hpre. apply Hpre. now apply nth_In.
Qed.

(** ** Item assignment *)

Lemma set_at_end_of_prefix (pre post : list R) (x v : R) :
  Array.set (pre ++ x :: post) (length pre) v = Ok (pre ++ v :: post).
Proof.
  induction pre as [| y pre IH]; simpl.
  - reflexivity.
  - now rewrite IH.
Qed.

Lemma set_past_the_end (a : list R) (v : R) :
  forall i, (length a <= i)%nat -> Array.set a i v = Raise IndexError.
Proof.
  induction a as [| x a IH]; intros i Hi.
  - now destruct i.
  - destruct i as [| i]; simpl in *; [ lia | ].
    rewrite IH by lia. reflexivity.
Qed.

(** ** Traversals *)

Lemma mapM_Forall2 {A B : Type} (f : A -> result B) (l : list A) (rs : list B) :
  Forall2 (fun x y => f x = Ok y) l rs -> mapM f l = Ok rs.
Proof.
  induction 1 as [| x y l rs Hx _ IH]; simpl.
  - reflexivity.
  - now rewrite Hx, IH.
Qed.

Lemma mapM_stops {A B : Type} (f : A -> result B)
    (pre : list A) (x : A) (post : list A) (rs : list B) (e : exn) :
  Forall2 (fun x y => f x = Ok y) pre rs ->
  f x = Raise e ->
  mapM f (pre ++ x :: post) = Raise e.
Proof.
  intros Hpre Hx. induction Hpre as [| x' y pre rs Hx' _ IH]; simpl.
  - now rewrite Hx.
  - now rewrite Hx', IH.
Qed.

Lemma mapM_length {A B : Type} (f : A -> result B) (l : list A) :
  forall rs, mapM f l = Ok rs -> length rs = length l.
Proof.
  induction l as [| x l IH]; simpl; intros rs H.
  - now injection H as <-.
  - destruct (f x); [ | discriminate H ].
    destruct (mapM f l) as [ys |]; [ | discriminate H ].
    simpl in H. injection H as <-. simpl. now rewrite (IH ys).
Qed.

(** ** The amplitude loop is a traversal of the spectra *)

Section Loops.

Variable S : Solver.
Variables WLs Br2opt g5opt : list R.
Variables L1 L2 : nat.

Lemma scale_fit_of_fit (c : R * list R) (a b : R) :
  curve_fit S (gauss5_scale_fn Br2opt g5opt)
    (Array.slice WLs L1 L2) (Array.slice (snd c) L1 L2) None = Ok [a; b] ->
  scale_fit S WLs Br2opt g5opt L1 L2 c =
    if window_matches WLs L1 L2 c then Ok (a, b) else Raise ValueError.
Proof.
  intros H. unfold scale_fit, plot, window_matches. rewrite H. cbn [bind].
  now destruct (Nat.eqb _ _).
Qed.

Lemma scale_fit_Ok (c : R * list R) (a b : R) :
  curve_fit S (gauss5_scale_fn Br2opt g5opt)
    (Array.slice WLs L1 L2) (Array.slice (snd c) L1 L2) None = Ok [a; b] ->
  window_matches WLs L1 L2 c = true ->
  scale_fit S WLs Br2opt g5opt L1 L2 c = Ok (a, b).
Proof. intros H Hw. now rewrite (scale_fit_of_fit c a b H), Hw. Qed.

Lemma scale_fit_Raise (c : R * list R) (e : exn) :
  curve_fit S (gauss5_scale_fn Br2opt g5opt)
    (Array.slice WLs L1 L2) (Array.slice (snd c) L1 L2) None = Raise e ->
  scale_fit S WLs Br2opt g5opt L1 L2 c = Raise e.
Proof. intros H. unfold scale_fit. now rewrite H. Qed.

(** When the solver answers for every spectrum, the traversal returns all
    amplitude pairs, unless plotting a spectrum raises. *)
Lemma mapM_scale_fit_of_fits (cs : list (R * list R)) (amps : list (R * R)) :
  Forall2 (fun c ab =>
    curve_fit S (gauss5_scale_fn Br2opt g5opt)
      (Array.slice WLs L1 L2) (Array.slice (snd c) L1 L2) None
    = Ok [fst ab; snd ab]) cs amps ->
  mapM (scale_fit S WLs Br2opt g5opt L1 L2) cs =
    if forallb (window_matches WLs L1 L2) cs then Ok amps
    else Raise ValueError.
Proof.
  induction 1 as [| c [a b] cs amps Hc _ IH]; cbn [mapM forallb].
  - reflexivity.
  - rewrite (scale_fit_of_fit c a b Hc), IH.
    destruct (window_matches WLs L1 L2 c); [ | reflexivity ].
    cbn [bind andb]. now destruct (forallb _ cs).
Qed.

(** When the solver raises for a spectrum after answering for those before
    it, the traversal raises: the solver's exception, unless plotting an
    earlier spectrum raised first. *)
Lemma mapM_scale_fit_stops (before : list (R * list R)) (failing : R * list R)
    (after : list (R * list R)) (amps : list (R * R)) (e : exn) :
  Forall2 (fun c ab =>
    curve_fit S (gauss5_scale_fn Br2opt g5opt)
      (Array.slice WLs L1 L2) (Array.slice (snd c) L1 L2) None
    = Ok [fst ab; snd ab]) before amps ->
  curve_fit S (gauss5_scale_fn Br2opt g5opt)
    (Array.slice WLs L1 L2) (Array.slice (snd failing) L1 L2) None = Raise e ->
  mapM (scale_fit S WLs Br2opt g5opt L1 L2) (before ++ failing :: after) =
    Raise (if forallb (window_matches WLs L1 L2) before then e
           else ValueError).
Proof.
  intros Hbefore Hfail.
  induction Hbefore as [| c [a b] cs amps Hc _ IH]; cbn [app mapM forallb].
  - now rewrite (scale_fit_Raise failing e Hfail).
  - rewrite (scale_fit_of_fit c a b Hc), IH.
    now destruct (window_matches WLs L1 L2 c).
Qed.

Lemma mapM_scale_fit_times_irrelevant (cs : list (R * list R)) :
  forall cs', map snd cs = map snd cs' ->
    mapM (scale_fit S WLs Br2opt g5opt L1 L2) cs =
    mapM (scale_fit S WLs Br2opt g5opt L1 L2) cs'.
Proof.
  induction cs as [| [t ys] cs IH]; intros [| [t' ys'] cs'] H;
    try discriminate H; [ reflexivity | ].
  simpl in H. injection H as -> Hrest. simpl.
  rewrite (IH cs' Hrest). reflexivity.
Qed.

(** The invariant of the loop: after the spectra [cpre], the two arrays
    hold the amplitudes fitted so far followed by what is left of the
    zeros. *)
Lemma for_range_fit (dataset : DataFrame) (crest : list (R * list R)) :
  forall cpre pa pb ja jb,
    columns dataset = cpre ++ crest ->
    length pa = length cpre -> length pb = length cpre ->
    length ja = length crest -> length jb = length crest ->
    for_range (fit_amplitudes_body S WLs Br2opt g5opt dataset L1 L2)
      (seq (length cpre) (length crest)) (pa ++ ja, pb ++ jb)
    = fmap (fun rs => (pa ++ map fst rs, pb ++ map snd rs))
        (mapM (scale_fit S WLs Br2opt g5opt L1 L2) crest).
Proof.
  induction crest as [| c crest IH]; intros cpre pa pb ja jb Hcols Hpa Hpb Hja Hjb.
  - destruct ja; [ | discriminate Hja ]. destruct jb; [ | discriminate Hjb ].
    reflexivity.
  - destruct ja as [| xa ja]; [ discriminate Hja | ].
    destruct jb as [| xb jb]; [ discriminate Hjb | ].
    cbn [length seq for_range mapM].
    unfold fit_amplitudes_body at 1, column.
    rewrite Hcols, nth_error_app2 by lia.
    rewrite Nat.sub_diag. cbn [nth_error bind].
    unfold scale_fit at 1.
    destruct (curve_fit S _ _ _ None) as [popt | e]; [ | reflexivity ].
    cbn [bind].
    destruct popt as [| a [| b [| ? ?]]]; try reflexivity.
    cbn [fst snd].
    replace (Array.set (pa ++ xa :: ja) (length cpre) a)
      with (Ok (pa ++ a :: ja))
      by (rewrite <- Hpa; symmetry; apply set_at_end_of_prefix).
    replace (Array.set (pb ++ xb :: jb) (length cpre) b)
      with (Ok (pb ++ b :: jb))
      by (rewrite <- Hpb; symmetry; apply set_at_end_of_prefix).
    cbn [bind].
    destruct (plot _ _) as [u | e]; [ | reflexivity ].
    cbn [bind].
    change (pa ++ a :: ja) with (pa ++ [a] ++ ja).
    change (pb ++ b :: jb) with (pb ++ [b] ++ jb).
    rewrite !app_assoc.
    replace (Datatypes.S (length cpre)) with (length (cpre ++ [c]))
      by (rewrite length_app; simpl; lia).
    rewrite (IH (cpre ++ [c]) (pa ++ [a]) (pb ++ [b]) ja jb).
    + destruct (mapM _ crest) as [rs |]; [ | reflexivity ].
      cbn [fmap bind map fst snd]. now rewrite <- !app_assoc.
    + now rewrite <- app_assoc.
    + rewrite !length_app; simpl; lia.
    + rewrite !length_app; simpl; lia.
    + simpl in Hja; lia.
    + simpl in Hjb; lia.
Qed.

Lemma fit_amplitudes_mapM (dataset : DataFrame) :
  fit_amplitudes S WLs Br2opt g5opt dataset L1 L2 (length (columns dataset))
  = fmap (fun rs => (map fst rs, map snd rs))
      (mapM (scale_fit S WLs Br2opt g5opt L1 L2) (columns dataset)).
Proof.
  unfold fit_amplitudes.
  apply (for_range_fit dataset (columns dataset) [] [] []);
    try reflexivity; unfold Array.zeros; now rewrite repeat_length.
Qed.

End Loops.

Lemma length_first_row (df : DataFrame) :
  length (first_row df) = length (columns df).
Proof. unfold first_row. apply length_map. Qed.

(** ** The script, stage by stage, as traversals *)

Lemma get_concs_mapM (S : Solver) (G : Trained) (dataset : DataFrame) :
  get_concs S G dataset =
  (L1 <- Array.first_above (WLs G) 360 ;;
   L2 <- Array.first_above (WLs G) 650 ;;
   rs <- mapM (scale_fit S (WLs G) (Br2opt G) (g5opt G) L1 L2) (columns dataset) ;;
   Ok (map (fun c => fst c / 60) (columns dataset),
       map (fun ab => Br2_conc_i * fst ab) rs,
       map (fun ab => snd ab / (line G).[0]) rs)).
Proof.
  unfold get_concs.
  destruct (Array.first_above (WLs G) 360) as [L1 |]; [ | reflexivity ].
  destruct (Array.first_above (WLs G) 650) as [L2 |]; [ | reflexivity ].
  cbn [bind].
  rewrite length_map, length_first_row, fit_amplitudes_mapM.
  destruct (mapM _ (columns dataset)) as [rs |]; [ | reflexivity ].
  cbn [fmap bind fst snd]. unfold first_row. now rewrite !map_map.
Qed.

Lemma train_mapM (S : Solver) (train1 train2 : DataFrame) :
  train S train1 train2 =
  (Br2opt <- fit_Br2 S (index_tail train1) train1 ;;
   g5opt <- fit_NaBr3 S (index_tail train1) Br2opt train1 ;;
   L1 <- Array.first_above (index_tail train1) 360 ;;
   L2 <- Array.first_above (index_tail train1) 650 ;;
   rs <- mapM (scale_fit S (index_tail train1) Br2opt g5opt L1 L2)
           (columns train2) ;;
   fmap (mkTrained (index_tail train1) Br2opt g5opt
           (map fst rs) (map snd rs) (compute_NaBr3_conc (map fst rs)))
        (fit_line S (compute_NaBr3_conc (map fst rs)) (map snd rs))).
Proof.
  unfold train.
  destruct (fit_Br2 S _ train1) as [B |]; [ | reflexivity ]. cbn [bind].
  destruct (fit_NaBr3 S _ B train1) as [g |]; [ | reflexivity ]. cbn [bind].
  destruct (Array.first_above _ 360) as [L1 |]; [ | reflexivity ].
  destruct (Array.first_above _ 650) as [L2 |]; [ | reflexivity ].
  cbn [bind].
  rewrite length_first_row, fit_amplitudes_mapM.
  destruct (mapM _ (columns train2)) as [rs |]; reflexivity.
Qed.

(** ** Shapes of the fitted arrays *)

Lemma fit_Br2_shape (S : Solver) (WLs : list R) (train1 : DataFrame)
    (Br2opt : list R) :
  fit_Br2 S WLs train1 = Ok Br2opt -> length Br2opt = 10%nat.
Proof.
  unfold fit_Br2. intros H.
  destruct (Array.first_above WLs 320); [ | discriminate H ].
  destruct (Array.first_above WLs 650); [ | discriminate H ].
  destruct (column train1 0); [ | discriminate H ].
  cbn [bind] in H. now apply curve_fit_shape in H.
Qed.

Lemma fit_NaBr3_shape (S : Solver) (WLs Br2opt : list R) (train1 : DataFrame)
    (g5opt : list R) :
  fit_NaBr3 S WLs Br2opt train1 = Ok g5opt -> length g5opt = 7%nat.
Proof.
  unfold fit_NaBr3. intros H.
  destruct (Array.first_above WLs 360); [ | discriminate H ].
  destruct (Array.first_above WLs 650); [ | discriminate H ].
  destruct (column train1 _); [ | discriminate H ].
  cbn [bind] in H. now apply curve_fit_shape in H.
Qed.

(** X12.  After a training run that completes, every array that later code
    reads by index has the length the code expects: ten bromine parameters,
    seven parameters of the combined fit, a slope and an intercept, and one
    amplitude of each kind per calibration spectrum. *)
Lemma trained_shapes (S : Solver) (train1 train2 : DataFrame) (G : Trained) :
  train S train1 train2 = Ok G ->
  length (Br2opt G) = 10%nat /\ length (g5opt G) = 7%nat /\
  length (line G) = 2%nat /\
  length (hBr2 G) = length (columns train2) /\
  length (hNaBr3 G) = length (columns train2).
Proof.
  intros H. rewrite train_mapM in H.
  destruct (fit_Br2 S _ train1) as [B |] eqn:HB; [ | discriminate H ].
  cbn [bind] in H.
  destruct (fit_NaBr3 S _ B train1) as [g |] eqn:Hg; [ | discriminate H ].
  cbn [bind] in H.
  destruct (Array.first_above _ 360) as [L1 |]; [ | discriminate H ].
  destruct (Array.first_above _ 650) as [L2 |]; [ | discriminate H ].
  cbn [bind] in H.
  destruct (mapM _ (columns train2)) as [rs |] eqn:Hrs; [ | discriminate H ].
  cbn [bind] in H.
  destruct (fit_line S _ _) as [l |] eqn:Hl; [ | discriminate H ].
  cbn [fmap bind] in H. injection H as <-.
  cbn [Br2opt g5opt line hBr2 hNaBr3].
  apply fit_Br2_shape in HB. apply fit_NaBr3_shape in Hg.
  apply curve_fit_shape in Hl. apply mapM_length in Hrs.
  rewrite !length_map. repeat split; assumption.
Qed.

(** ** Peak terms written inline are the spec's [gaussian] *)

Lemma gauss5_peaks (Br2opt : list R) (WL h1 h2 l2 w2 h3 l3 w3 : R) :
  gauss5 Br2opt WL h1 h2 l2 w2 h3 l3 w3 =
  h1 * gaussianSum WL (BromineReference Br2opt) +
  gaussian WL h2 l2 w2 + gaussian WL h3 l3 w3.
Proof.
  unfold gauss5, gaussianSum, BromineReference, gaussian. simpl. ring.
Qed.

Lemma gauss5_scale_peaks (Br2opt g5opt : list R) (WL hBr2 hNaBr3 : R) :
  gauss5_scale Br2opt g5opt WL hBr2 hNaBr3 =
  hBr2 * (gaussian WL Br2opt.[0] Br2opt.[1] Br2opt.[2] +
          gaussian WL Br2opt.[3] Br2opt.[4] Br2opt.[5] +
          gaussian WL Br2opt.[6] Br2opt.[7] Br2opt.[8]) +
  hNaBr3 * (gaussian WL g5opt.[1] g5opt.[2] g5opt.[3] +
            gaussian WL g5opt.[4] g5opt.[5] g5opt.[6]).
Proof. reflexivity. Qed.

(** ** The sample runs, evaluated *)

Lemma sample_first_above_320 : Array.first_above sample_WLs 320 = Ok 1%nat.
Proof. eval_first_above sample_WLs. Qed.

Lemma sample_first_above_360 : Array.first_above sample_WLs 360 = Ok 3%nat.
Proof. eval_first_above sample_WLs. Qed.

Lemma sample_first_above_650 : Array.first_above sample_WLs 650 = Ok 15%nat.
Proof. eval_first_above sample_WLs. Qed.

Lemma unordered_first_above_320 : Array.first_above unordered_WLs 320 = Ok 1%nat.
Proof. eval_first_above unordered_WLs. Qed.

Lemma unordered_first_above_360 : Array.first_above unordered_WLs 360 = Ok 3%nat.
Proof. eval_first_above unordered_WLs. Qed.

Lemma unordered_first_above_650 : Array.first_above unordered_WLs 650 = Ok 15%nat.
Proof. eval_first_above unordered_WLs. Qed.

Create Rewrite HintDb sample_runs.
#[local] Hint Rewrite
  sample_first_above_320 sample_first_above_360 sample_first_above_650
  unordered_first_above_320 unordered_first_above_360 unordered_first_above_650
  : sample_runs.

Lemma sample_fit_Br2 :
  fit_Br2 guess_solver sample_WLs sample_frame = Ok p0_Br2.
Proof. unfold fit_Br2. autorewrite with sample_runs. reflexivity. Qed.

Lemma sample_fit_NaBr3 :
  fit_NaBr3 guess_solver sample_WLs p0_Br2 sample_frame = Ok NaBr3_p0.
Proof. unfold fit_NaBr3. autorewrite with sample_runs. reflexivity. Qed.

Lemma sample_training_run :
  train guess_solver sample_frame sample_frame = Ok sample_trained.
Proof.
  rewrite train_mapM. cbn [index_tail sample_frame].
  rewrite sample_fit_Br2. cbn [bind]. rewrite sample_fit_NaBr3. cbn [bind].
  autorewrite with sample_runs. reflexivity.
Qed.

(** What [stalling_solver] does with a spectrum depends on the absorbance
    at the start of the window. *)
Ltac eval_stalling_fit :=
  cbn [curve_fit stalling_solver]; unfold stalling_fit;
  unfold spectrum_a, spectrum_b, spectrum_c, spectrum_saturated;
  cbn [Array.slice snd skipn firstn Nat.sub hd]; eval_gtb; reflexivity.

Lemma stalling_fits_spectrum_a (t : R) :
  curve_fit stalling_solver (gauss5_scale_fn p0_Br2 NaBr3_p0)
    (Array.slice sample_WLs 3 15) (Array.slice (snd (t, spectrum_a)) 3 15) None
  = Ok [1; 1].
Proof. eval_stalling_fit. Qed.

Lemma stalling_fits_spectrum_c (t : R) :
  curve_fit stalling_solver (gauss5_scale_fn p0_Br2 NaBr3_p0)
    (Array.slice sample_WLs 3 15) (Array.slice (snd (t, spectrum_c)) 3 15) None
  = Ok [1; 1].
Proof. eval_stalling_fit. Qed.

Lemma stalling_fails_on_saturated (t : R) :
  curve_fit stalling_solver (gauss5_scale_fn p0_Br2 NaBr3_p0)
    (Array.slice sample_WLs 3 15)
    (Array.slice (snd (t, spectrum_saturated)) 3 15) None
  = Raise RuntimeError.
Proof. eval_stalling_fit. Qed.

(** * The claims *)

(** ** C1: the scaling model *)

(** C1.  With the frozen parameter arrays of the two reference fits (ten
    values from the bromine fit, seven from the combined fit), for every
    wavelength and every pair of amplitudes [gauss5_scale] is [hBr2] times
    the Gaussian sum of the three bromine reference peaks plus [hNaBr3]
    times the Gaussian sum of the two tribromide reference peaks; it is
    linear in the pair of amplitudes and vanishes at [(0, 0)]. *)
Theorem gauss5_scale_is_scaling_model :
  forall (Br2opt g5opt : list R) (wl hBr2 hNaBr3 : R),
    length Br2opt = 10%nat ->
    length g5opt = 7%nat ->
    gauss5_scale Br2opt g5opt wl hBr2 hNaBr3 =
      scaling_model_spec (BromineReference Br2opt) (TribromideReference g5opt)
        wl hBr2 hNaBr3
    /\ (forall k a b a' b',
          gauss5_scale Br2opt g5opt wl (k * a + a') (k * b + b') =
          k * gauss5_scale Br2opt g5opt wl a b +
          gauss5_scale Br2opt g5opt wl a' b')
    /\ gauss5_scale Br2opt g5opt wl 0 0 = 0.
Proof.
  intros B g wl a b _ _. split; [ | split ].
  - rewrite gauss5_scale_peaks.
    unfold scaling_model_spec, gaussianSum, BromineReference, TribromideReference.
    simpl. ring.
  - intros k x y x' y'. rewrite !gauss5_scale_peaks. ring.
  - rewrite gauss5_scale_peaks. ring.
Qed.

Lemma gauss5_scale_is_scaling_model_witness :
  length p0_Br2 = 10%nat /\ length NaBr3_p0 = 7%nat /\
  gauss5_scale p0_Br2 NaBr3_p0 400 1 1 =
    scaling_model_spec (BromineReference p0_Br2) (TribromideReference NaBr3_p0)
      400 1 1.
Proof.
  split; [ reflexivity | split; [ reflexivity | ] ].
  apply (gauss5_scale_is_scaling_model p0_Br2 NaBr3_p0 400 1 1);
    reflexivity.
Defined.

(** ** C2: amplitudes to concentrations *)

(** C2.  When both window bounds are found and the solver returns an
    amplitude pair for every spectrum, [get_concs] returns, for the spectra
    in input order, the times divided by 60, the bromine concentrations
    [Br2_conc_i * amplitudeBr2] and the tribromide concentrations
    [amplitudeNaBr3 / line[0]]: the slope alone, the intercept [line[1]] is
    not read.  The three arrays have one entry per spectrum.  The one other
    outcome is the [ValueError] of plotting a spectrum whose window has not
    the length of the wavelength window. *)
Theorem get_concs_conversion :
  forall (S : Solver) (G : Trained) (dataset : DataFrame) (L1 L2 : nat)
         (amps : list (R * R)),
    length (line G) = 2%nat ->
    Array.first_above (WLs G) 360 = Ok L1 ->
    Array.first_above (WLs G) 650 = Ok L2 ->
    Forall2 (fun c ab =>
      curve_fit S (gauss5_scale_fn (Br2opt G) (g5opt G))
        (Array.slice (WLs G) L1 L2) (Array.slice (snd c) L1 L2) None
      = Ok [fst ab; snd ab]) (columns dataset) amps ->
    get_concs S G dataset =
      (if forallb (window_matches (WLs G) L1 L2) (columns dataset)
       then Ok (map (fun c => fst c / 60) (columns dataset),
                map (fun ab => Br2_conc_i * fst ab) amps,
                map (fun ab => snd ab / (line G).[0]) amps)
       else Raise ValueError)
    /\ length amps = length (columns dataset).
Proof.
  intros S G ds L1 L2 amps _ H1 H2 Hfits. split.
  - rewrite get_concs_mapM, H1, H2. cbn [bind].
    rewrite (mapM_scale_fit_of_fits _ _ _ _ _ _ _ _ Hfits).
    now destruct (forallb _ (columns ds)).
  - symmetry. exact (Forall2_length Hfits).
Qed.

Lemma get_concs_conversion_witness :
  get_concs guess_solver sample_trained sample_frame =
    Ok (map (fun c => fst c / 60) (columns sample_frame),
        map (fun ab => Br2_conc_i * fst ab) [(1, 1); (1, 1); (1, 1)],
        map (fun ab => snd ab / (line sample_trained).[0])
          [(1, 1); (1, 1); (1, 1)]).
Proof.
  refine (proj1 (get_concs_conversion guess_solver sample_trained sample_frame
                   3 15 [(1, 1); (1, 1); (1, 1)] eq_refl
                   sample_first_above_360 sample_first_above_650 _)).
  repeat constructor.
Defined.

(** ** C3: implied tribromide concentrations *)

(** C3.  For every vector of fitted bromine amplitudes the derived
    tribromide concentrations are [0.00342 * (1 - amplitudeBr2)], entry by
    entry; amplitudes [1.0, 0.7, 0.4] give [0.0, 0.001026, 0.002052]; and in
    every training run that completes, the concentrations left in the
    globals are the ones derived from the fitted amplitudes, one per
    calibration spectrum, and the calibration line is the solver's answer
    for them against the fitted tribromide amplitudes. *)
Theorem NaBr3_conc_stoichiometry :
  (forall amplitudes : list R,
     compute_NaBr3_conc amplitudes =
       map (fun amplitudeBr2 => 0.00342 * (1 - amplitudeBr2)) amplitudes)
  /\ compute_NaBr3_conc [1.0; 0.7; 0.4] = [0.0; 0.001026; 0.002052]
  /\ (forall (S : Solver) (train1 train2 : DataFrame) (G : Trained),
        train S train1 train2 = Ok G ->
        NaBr3_conc G = compute_NaBr3_conc (hBr2 G)
        /\ length (NaBr3_conc G) = length (columns train2)
        /\ fit_line S (NaBr3_conc G) (hNaBr3 G) = Ok (line G)).
Proof.
  split; [ | split ].
  - intros amplitudes. unfold compute_NaBr3_conc, Br2_conc_i.
    apply map_ext. intros a. lra.
  - unfold compute_NaBr3_conc, Br2_conc_i. cbn [map].
    repeat (apply f_equal2; [ lra | ]). reflexivity.
  - intros S t1 t2 G H. rewrite train_mapM in H.
    destruct (fit_Br2 S _ t1) as [B |]; [ | discriminate H ].
    cbn [bind] in H.
    destruct (fit_NaBr3 S _ B t1) as [g |]; [ | discriminate H ].
    cbn [bind] in H.
    destruct (Array.first_above _ 360) as [L1 |]; [ | discriminate H ].
    destruct (Array.first_above _ 650) as [L2 |]; [ | discriminate H ].
    cbn [bind] in H.
    destruct (mapM _ (columns t2)) as [rs |] eqn:Hrs; [ | discriminate H ].
    cbn [bind] in H.
    destruct (fit_line S _ _) as [l |] eqn:Hl; [ | discriminate H ].
    cbn [fmap bind] in H. injection H as <-.
    cbn [NaBr3_conc hBr2 hNaBr3 line].
    split; [ reflexivity | split; [ | exact Hl ] ].
    unfold compute_NaBr3_conc. rewrite !length_map.
    now apply mapM_length in Hrs.
Qed.

Lemma NaBr3_conc_stoichiometry_witness :
  train guess_solver sample_frame sample_frame = Ok sample_trained /\
  NaBr3_conc sample_trained = compute_NaBr3_conc (hBr2 sample_trained) /\
  length (NaBr3_conc sample_trained) = length (columns sample_frame).
Proof.
  split; [ exact sample_training_run | ].
  destruct (proj2 (proj2 NaBr3_conc_stoichiometry) guess_solver sample_frame
              sample_frame sample_trained sample_training_run)
    as (Hconc & Hlen & _).
  split; [ exact Hconc | exact Hlen ].
Defined.

(** ** C4: a spectrum the solver cannot fit *)

(** C4, as stated, fails: on three spectra of which the first and the third
    can be fitted and the second cannot, [get_concs] raises the solver's
    exception and returns nothing for any spectrum. *)
Lemma get_concs_aborts_on_saturated_spectrum :
  scale_fit stalling_solver sample_WLs p0_Br2 NaBr3_p0 3 15 (0, spectrum_a)
    = Ok (1, 1) /\
  scale_fit stalling_solver sample_WLs p0_Br2 NaBr3_p0 3 15
    (60, spectrum_saturated) = Raise RuntimeError /\
  scale_fit stalling_solver sample_WLs p0_Br2 NaBr3_p0 3 15 (120, spectrum_c)
    = Ok (1, 1) /\
  get_concs stalling_solver sample_trained saturated_frame = Raise RuntimeError.
Proof.
  assert (Ha := scale_fit_Ok _ _ _ _ _ _ (0, spectrum_a) 1 1
                  (stalling_fits_spectrum_a 0) eq_refl).
  assert (Hs := scale_fit_Raise _ _ _ _ _ _ (60, spectrum_saturated) _
                  (stalling_fails_on_saturated 60)).
  assert (Hc := scale_fit_Ok _ _ _ _ _ _ (120, spectrum_c) 1 1
                  (stalling_fits_spectrum_c 120) eq_refl).
  split; [ exact Ha | split; [ exact Hs | split; [ exact Hc | ] ] ].
  rewrite get_concs_mapM. cbn [WLs Br2opt g5opt sample_trained].
  autorewrite with sample_runs.
  cbn [bind columns saturated_frame mapM].
  now rewrite Ha, Hs.
Qed.

(** C4, amended.  When the solver raises for one spectrum, after returning
    amplitudes for all spectra before it, the amplitude loop raises: that
    exception, or the [ValueError] of plotting an earlier spectrum whose
    window has not the length of the wavelength window.  Either way
    [get_concs] returns no triple for any spectrum, and a training run on
    that calibration set produces no globals. *)
Theorem batch_aborts_at_first_failed_fit :
  forall (S : Solver) (WLs Br2opt g5opt : list R) (dataset : DataFrame)
         (L1 L2 : nat) (before : list (R * list R)) (failing : R * list R)
         (after : list (R * list R)) (amps : list (R * R)) (e : exn),
    columns dataset = before ++ failing :: after ->
    Forall2 (fun c ab =>
      curve_fit S (gauss5_scale_fn Br2opt g5opt)
        (Array.slice WLs L1 L2) (Array.slice (snd c) L1 L2) None
      = Ok [fst ab; snd ab]) before amps ->
    curve_fit S (gauss5_scale_fn Br2opt g5opt)
      (Array.slice WLs L1 L2) (Array.slice (snd failing) L1 L2) None
      = Raise e ->
    Array.first_above WLs 360 = Ok L1 ->
    Array.first_above WLs 650 = Ok L2 ->
    let raised :=
      if forallb (window_matches WLs L1 L2) before then e else ValueError in
    fit_amplitudes S WLs Br2opt g5opt dataset L1 L2 (length (columns dataset))
      = Raise raised
    /\ (forall hBr2 hNaBr3 NaBr3_conc line,
          get_concs S
            (mkTrained WLs Br2opt g5opt hBr2 hNaBr3 NaBr3_conc line) dataset
          = Raise raised)
    /\ (forall train1,
          index_tail train1 = WLs ->
          fit_Br2 S WLs train1 = Ok Br2opt ->
          fit_NaBr3 S WLs Br2opt train1 = Ok g5opt ->
          train S train1 dataset = Raise raised).
Proof.
  intros S W B g ds L1 L2 pre c post amps e Hcols Hpre Hc H1 H2 raised.
  assert (HmapM : mapM (scale_fit S W B g L1 L2) (columns ds) = Raise raised).
  { rewrite Hcols.
    exact (mapM_scale_fit_stops S W B g L1 L2 pre c post amps e Hpre Hc). }
  split; [ | split ].
  - now rewrite fit_amplitudes_mapM, HmapM.
  - intros hb hn nc l. rewrite get_concs_mapM. cbn [WLs Br2opt g5opt].
    rewrite H1, H2. cbn [bind]. now rewrite HmapM.
  - intros t1 Hix HB Hg. rewrite train_mapM, Hix, HB. cbn [bind].
    rewrite Hg. cbn [bind]. rewrite H1, H2. cbn [bind]. now rewrite HmapM.
Qed.

Lemma batch_aborts_at_first_failed_fit_witness :
  fit_amplitudes stalling_solver sample_WLs p0_Br2 NaBr3_p0 saturated_frame
    3 15 (length (columns saturated_frame)) = Raise RuntimeError.
Proof.
  refine (proj1 (batch_aborts_at_first_failed_fit stalling_solver
                   sample_WLs p0_Br2 NaBr3_p0 saturated_frame 3 15
                   [(0, spectrum_a)] (60, spectrum_saturated)
                   [(120, spectrum_c)] [(1, 1)] RuntimeError eq_refl _
                   (stalling_fails_on_saturated 60)
                   sample_first_above_360 sample_first_above_650)).
  constructor; [ exact (stalling_fits_spectrum_a 0) | constructor ].
Defined.

(** ** C5: degenerate calibration data *)

(** C5, as stated, fails: a training run whose derived tribromide
    concentrations are all the same number (three times 0) completes and
    leaves a calibration line in the globals; nothing is raised. *)
Lemma degenerate_calibration_returns_a_line :
  train guess_solver sample_frame sample_frame = Ok sample_trained /\
  degenerate (NaBr3_conc sample_trained) /\
  length (NaBr3_conc sample_trained) = 3%nat /\
  line sample_trained = [1; 1].
Proof.
  split; [ exact sample_training_run | ].
  split; [ | split; reflexivity ].
  intros x y Hx Hy.
  cbn [NaBr3_conc sample_trained compute_NaBr3_conc map In] in Hx, Hy.
  destruct Hx as [<- | [<- | [<- | []]]];
    destruct Hy as [<- | [<- | [<- | []]]]; reflexivity.
Qed.

(** C5, amended.  The calibration stage checks nothing about the derived
    concentrations: once the two reference fits and the amplitude fits have
    returned (and no calibration spectrum failed to plot for having a
    window of another length than the wavelength window), the outcome of the
    training run is the outcome of the solver on the concentrations
    [Br2_conc_i * (1 - amplitudeBr2)] against the fitted tribromide
    amplitudes, a line where the solver returns one and the solver's
    exception where it raises, degenerate data or not. *)
Theorem calibration_is_the_solvers_answer :
  forall (S : Solver) (train1 train2 : DataFrame) (Br2opt g5opt : list R)
         (L1 L2 : nat) (amps : list (R * R)),
    fit_Br2 S (index_tail train1) train1 = Ok Br2opt ->
    fit_NaBr3 S (index_tail train1) Br2opt train1 = Ok g5opt ->
    Array.first_above (index_tail train1) 360 = Ok L1 ->
    Array.first_above (index_tail train1) 650 = Ok L2 ->
    Forall2 (fun c ab =>
      curve_fit S (gauss5_scale_fn Br2opt g5opt)
        (Array.slice (index_tail train1) L1 L2) (Array.slice (snd c) L1 L2) None
      = Ok [fst ab; snd ab]) (columns train2) amps ->
    train S train1 train2 =
      if forallb (window_matches (index_tail train1) L1 L2) (columns train2)
      then
        fmap (mkTrained (index_tail train1) Br2opt g5opt
                (map fst amps) (map snd amps)
                (map (fun ab => Br2_conc_i * (1 - fst ab)) amps))
             (curve_fit S linear_fn
                (map (fun ab => Br2_conc_i * (1 - fst ab)) amps)
                (map snd amps) None)
      else Raise ValueError.
Proof.
  intros S t1 t2 B g L1 L2 amps HB Hg H1 H2 Hfits.
  rewrite train_mapM, HB. cbn [bind]. rewrite Hg. cbn [bind].
  rewrite H1, H2. cbn [bind].
  rewrite (mapM_scale_fit_of_fits _ _ _ _ _ _ _ _ Hfits).
  destruct (forallb _ (columns t2)); [ | reflexivity ].
  cbn [bind]. unfold fit_line.
  replace (compute_NaBr3_conc (map fst amps))
    with (map (fun ab => Br2_conc_i * (1 - fst ab)) amps).
  - reflexivity.
  - unfold compute_NaBr3_conc. rewrite map_map. apply map_ext.
    intros ab. lra.
Qed.

Lemma calibration_is_the_solvers_answer_witness :
  train guess_solver sample_frame sample_frame =
    fmap (mkTrained (index_tail sample_frame) p0_Br2 NaBr3_p0
            (map fst [(1, 1); (1, 1); (1, 1)])
            (map snd [(1, 1); (1, 1); (1, 1)])
            (map (fun ab => Br2_conc_i * (1 - fst ab)) [(1, 1); (1, 1); (1, 1)]))
         (curve_fit guess_solver linear_fn
            (map (fun ab => Br2_conc_i * (1 - fst ab)) [(1, 1); (1, 1); (1, 1)])
            (map snd [(1, 1); (1, 1); (1, 1)]) None).
Proof.
  refine (calibration_is_the_solvers_answer guess_solver sample_frame
            sample_frame p0_Br2 NaBr3_p0 3 15 [(1, 1); (1, 1); (1, 1)]
            sample_fit_Br2 sample_fit_NaBr3
            sample_first_above_360 sample_first_above_650 _).
  repeat constructor.
Defined.

(** ** C6: the wavelength axis *)

(** C6, as stated, fails: on frames whose wavelength axis has 400 after
    425, training completes and [get_concs] returns; nothing is raised at
    load time or later. *)
Lemma unordered_axis_is_accepted :
  ~ strictly_increasing (index_tail unordered_frame) /\
  train guess_solver unordered_frame unordered_frame = Ok unordered_trained /\
  get_concs guess_solver unordered_trained unordered_frame =
    Ok ([0 / 60; 60 / 60; 120 / 60],
        [Br2_conc_i * 1; Br2_conc_i * 1; Br2_conc_i * 1],
        [1 / 1; 1 / 1; 1 / 1]).
Proof.
  split; [ | split ].
  - cbn [index_tail unordered_frame]. unfold unordered_WLs.
    cbn [strictly_increasing]. intros H. decompose [and] H. lra.
  - rewrite train_mapM. unfold fit_Br2, fit_NaBr3.
    cbn [index_tail unordered_frame].
    autorewrite with sample_runs. reflexivity.
  - rewrite get_concs_mapM. cbn [WLs unordered_trained].
    autorewrite with sample_runs. reflexivity.
Qed.

(** C6, amended.  The order of the wavelength axis is never examined.
    Window selection looks for the first wavelength above a bound: it finds
    one whenever the axis holds a wavelength above the bound, increasing or
    not, and raises [IndexError] exactly when it holds none; [get_concs] does
    not read the wavelength axis of the dataset it is given. *)
Theorem wavelength_axis_never_validated :
  forall (S : Solver) (G : Trained) (dataset : DataFrame)
         (axis : list R) (bound : R),
    (Exists (fun wl => bound < wl) axis ->
     exists k, Array.first_above axis bound = Ok k /\
               bound < axis.[k] /\
               (forall j, (j < k)%nat -> axis.[j] <= bound))
    /\ (~ Exists (fun wl => bound < wl) axis ->
        Array.first_above axis bound = Raise IndexError)
    /\ get_concs S G (mkFrame axis (columns dataset)) = get_concs S G dataset.
Proof.
  intros S G ds axis bound. split; [ | split ].
  - intros Hex.
    destruct (first_above_from_Exists axis bound 0 Hex) as [k Hk].
    exists k. split; [ exact Hk | now apply first_above_Ok ].
  - intros Hnone. unfold Array.first_above.
    destruct (Array.first_above_from axis bound 0) as [k | e] eqn:Hk.
    + exfalso. apply Hnone.
      apply first_above_from_Ok in Hk as (pre & x & post & -> & _ & _ & Hx).
      apply Exists_app. right. now constructor.
    + apply first_above_from_Raise in Hk as [-> _]. reflexivity.
  - now rewrite !get_concs_mapM.
Qed.

Lemma wavelength_axis_never_validated_witness :
  Exists (fun wl => 650 < wl) unordered_WLs /\
  exists k, Array.first_above unordered_WLs 650 = Ok k /\
            650 < unordered_WLs.[k] /\
            (forall j, (j < k)%nat -> unordered_WLs.[j] <= 650).
Proof.
  assert (H : Exists (fun wl => 650 < wl) unordered_WLs).
  { unfold unordered_WLs. do 15 apply Exists_cons_tl. apply Exists_cons_hd. lra. }
  split; [ exact H | ].
  apply (wavelength_axis_never_validated guess_solver unordered_trained
           unordered_frame unordered_WLs 650).
  exact H.
Defined.

(** ** C7: the initial guess of the second fit *)

(** C7, as stated, fails: the guess for the bromine amplitude, the first
    entry of [NaBr3_p0], is 0.3, which is 0.7 away from 1.0; the 1.0 of the
    tuple is the height of the first tribromide peak. *)
Lemma NaBr3_p0_amplitude_is_not_one :
  NaBr3_p0.[0] = 0.3 /\ Rabs (NaBr3_p0.[0] - 1.0) = 0.7 /\ NaBr3_p0.[1] = 1.0.
Proof.
  split; [ reflexivity | split; [ | reflexivity ] ].
  change NaBr3_p0.[0] with 0.3.
  unfold Rabs. destruct (Rcase_abs (0.3 - 1.0)); lra.
Qed.

(** C7, amended.  The second fit hands the solver the model [gauss5] over
    the frozen bromine parameters, the 360-650 nm window of the last
    spectrum of the first training set, and the initial guess that binds the
    bromine amplitude to 0.3 and the two tribromide peaks to height 1.0,
    centre 400, width 20 and height 2.5, centre 340, width 20. *)
Theorem fit_NaBr3_initial_guess :
  forall (S : Solver) (WLs Br2opt : list R) (train1 : DataFrame)
         (L1 L2 : nat) (c : R * list R),
    length Br2opt = 10%nat ->
    Array.first_above WLs 360 = Ok L1 ->
    Array.first_above WLs 650 = Ok L2 ->
    column train1 (length (columns train1) - 1) = Ok c ->
    fit_NaBr3 S WLs Br2opt train1 =
      curve_fit S (gauss5_fn Br2opt)
        (Array.slice WLs L1 L2) (Array.slice (snd c) L1 L2)
        (Some [0.3; 1.0; 400; 20; 2.5; 340; 20])
    /\ (forall WL,
          call (gauss5_fn Br2opt) WL [0.3; 1.0; 400; 20; 2.5; 340; 20] =
          0.3 * gaussianSum WL (BromineReference Br2opt) +
          gaussian WL 1.0 400 20 + gaussian WL 2.5 340 20).
Proof.
  intros S W B t1 L1 L2 c _ H1 H2 Hc. split.
  - unfold fit_NaBr3. rewrite H1, H2, length_first_row, Hc. reflexivity.
  - intros WL. cbn [call gauss5_fn]. rewrite gauss5_peaks. reflexivity.
Qed.

Lemma fit_NaBr3_initial_guess_witness :
  column sample_frame (length (columns sample_frame) - 1) =
    Ok (120, spectrum_c) /\
  fit_NaBr3 guess_solver sample_WLs p0_Br2 sample_frame =
    curve_fit guess_solver (gauss5_fn p0_Br2)
      (Array.slice sample_WLs 3 15)
      (Array.slice (snd (120, spectrum_c)) 3 15)
      (Some [0.3; 1.0; 400; 20; 2.5; 340; 20]).
Proof.
  split; [ reflexivity | ].
  apply (fit_NaBr3_initial_guess guess_solver sample_WLs p0_Br2 sample_frame
           3 15 (120, spectrum_c) eq_refl
           sample_first_above_360 sample_first_above_650 eq_refl).
Defined.

(** ** C8: minutes *)

Lemma column_absorbances (df df' : DataFrame) (i : nat) {A : Type}
    (k : list R -> result A) :
  map snd (columns df) = map snd (columns df') ->
  (c <- column df i ;; k (snd c)) = (c <- column df' i ;; k (snd c)).
Proof.
  intros H. unfold column.
  assert (Hi : option_map snd (nth_error (columns df) i) =
               option_map snd (nth_error (columns df') i))
    by now rewrite <- !nth_error_map, H.
  destruct (nth_error (columns df) i) as [c |],
           (nth_error (columns df') i) as [c' |]; try discriminate Hi.
  - simpl in Hi. injection Hi as Hi. cbn [bind]. now rewrite Hi.
  - reflexivity.
Qed.

Lemma same_absorbances_same_length (df df' : DataFrame) :
  map snd (columns df) = map snd (columns df') ->
  length (columns df) = length (columns df').
Proof.
  intros H. rewrite <- (length_map snd (columns df)), H. apply length_map.
Qed.

(** C8.  When both window bounds are found, the solver returns an
    amplitude pair for every spectrum and every spectrum plots, [get_concs]
    returns as its time axis every capture time of the dataset divided by
    60.  The division happens nowhere else: a dataset with the same
    absorbances and other capture times gets the same two concentration
    arrays, with its own times divided by 60; whatever [get_concs] does, it
    does the same on both datasets up to that time axis; and training does
    not read capture times at all. *)
Theorem time_in_minutes_only_in_get_concs :
  forall (S : Solver) (G : Trained) (dataset dataset' train1 train1' : DataFrame)
         (L1 L2 : nat) (amps : list (R * R)),
    length (line G) = 2%nat ->
    Array.first_above (WLs G) 360 = Ok L1 ->
    Array.first_above (WLs G) 650 = Ok L2 ->
    Forall2 (fun c ab =>
      curve_fit S (gauss5_scale_fn (Br2opt G) (g5opt G))
        (Array.slice (WLs G) L1 L2) (Array.slice (snd c) L1 L2) None
      = Ok [fst ab; snd ab]) (columns dataset) amps ->
    forallb (window_matches (WLs G) L1 L2) (columns dataset) = true ->
    map snd (columns dataset) = map snd (columns dataset') ->
    get_concs S G dataset =
      Ok (map (fun t => t / 60) (first_row dataset),
          map (fun ab => Br2_conc_i * fst ab) amps,
          map (fun ab => snd ab / (line G).[0]) amps)
    /\ get_concs S G dataset' =
         Ok (map (fun t => t / 60) (first_row dataset'),
             map (fun ab => Br2_conc_i * fst ab) amps,
             map (fun ab => snd ab / (line G).[0]) amps)
    /\ (index_tail train1 = index_tail train1' ->
        map snd (columns train1) = map snd (columns train1') ->
        train S train1 dataset = train S train1' dataset').
Proof.
  intros S G ds ds' t1 t1' L1 L2 amps _ H1 H2 Hfits Hplots Hds.
  assert (HmapM : mapM (scale_fit S (WLs G) (Br2opt G) (g5opt G) L1 L2)
                    (columns ds) = Ok amps)
    by now rewrite (mapM_scale_fit_of_fits _ _ _ _ _ _ _ _ Hfits), Hplots.
  split; [ | split ].
  - rewrite get_concs_mapM, H1, H2. cbn [bind]. rewrite HmapM. cbn [bind].
    unfold first_row. now rewrite map_map.
  - rewrite get_concs_mapM, H1, H2. cbn [bind].
    rewrite <- (mapM_scale_fit_times_irrelevant S _ _ _ L1 L2 _ _ Hds), HmapM.
    cbn [bind]. unfold first_row. now rewrite map_map.
  - clear H1 H2 Hfits Hplots HmapM.
    intros Hix Ht1. rewrite !train_mapM, <- Hix.
    assert (HBr2 : fit_Br2 S (index_tail t1) t1 = fit_Br2 S (index_tail t1) t1').
    { unfold fit_Br2.
      destruct (Array.first_above _ 320) as [K1 |]; [ | reflexivity ].
      destruct (Array.first_above _ 650) as [K2 |]; [ | reflexivity ].
      cbn [bind].
      exact (column_absorbances t1 t1' 0
               (fun ys => curve_fit S gaussian3_fn _ (Array.slice ys K1 K2) _) Ht1). }
    rewrite <- HBr2.
    destruct (fit_Br2 S _ t1) as [B |]; [ | reflexivity ]. cbn [bind].
    assert (HNaBr3 : fit_NaBr3 S (index_tail t1) B t1 =
                     fit_NaBr3 S (index_tail t1) B t1').
    { unfold fit_NaBr3.
      destruct (Array.first_above _ 360) as [K1 |]; [ | reflexivity ].
      destruct (Array.first_above _ 650) as [K2 |]; [ | reflexivity ].
      cbn [bind].
      rewrite !length_first_row, <- (same_absorbances_same_length t1 t1' Ht1).
      exact (column_absorbances t1 t1' _
               (fun ys => curve_fit S (gauss5_fn B) _ (Array.slice ys K1 K2) _) Ht1). }
    rewrite <- HNaBr3.
    destruct (fit_NaBr3 S _ B t1) as [g |]; [ | reflexivity ]. cbn [bind].
    destruct (Array.first_above _ 360) as [K1 |]; [ | reflexivity ].
    destruct (Array.first_above _ 650) as [K2 |]; [ | reflexivity ].
    cbn [bind].
    now rewrite (mapM_scale_fit_times_irrelevant S _ _ _ K1 K2 _ _ Hds).
Qed.

Lemma time_in_minutes_only_in_get_concs_witness :
  forallb (window_matches (WLs sample_trained) 3 15) (columns sample_frame)
    = true /\
  map snd (columns sample_frame) = map snd (columns retimed_frame) /\
  get_concs guess_solver sample_trained sample_frame =
    Ok ([0 / 60; 60 / 60; 120 / 60],
        [Br2_conc_i * 1; Br2_conc_i * 1; Br2_conc_i * 1],
        [1 / 1; 1 / 1; 1 / 1]) /\
  get_concs guess_solver sample_trained retimed_frame =
    Ok ([0 / 60; 1 / 60; 2 / 60],
        [Br2_conc_i * 1; Br2_conc_i * 1; Br2_conc_i * 1],
        [1 / 1; 1 / 1; 1 / 1]).
Proof.
  split; [ reflexivity | split; [ reflexivity | ] ].
  assert (Hfits :
    Forall2 (fun c ab =>
      curve_fit guess_solver
        (gauss5_scale_fn (Br2opt sample_trained) (g5opt sample_trained))
        (Array.slice (WLs sample_trained) 3 15) (Array.slice (snd c) 3 15) None
      = Ok [fst ab; snd ab]) (columns sample_frame) [(1, 1); (1, 1); (1, 1)])
    by repeat constructor.
  destruct (time_in_minutes_only_in_get_concs guess_solver sample_trained
              sample_frame retimed_frame sample_frame retimed_frame 3 15
              [(1, 1); (1, 1); (1, 1)] eq_refl
              sample_first_above_360 sample_first_above_650 Hfits
              eq_refl eq_refl) as (Hds & Hds' & _).
  split; [ exact Hds | exact Hds' ].
Defined.

(** ** C9: a peak at its centre *)

(** C9.  For every height, centre and width with [width > 0], the Gaussian
    peak evaluated at its centre is its height; the same holds for the peak
    term that [gauss5] writes inline, once the other terms are switched
    off. *)
Theorem gaussian_at_center :
  forall (height center width : R),
    width > 0 ->
    gaussian center height center width = height
    /\ (forall Br2opt l3 w3,
          length Br2opt = 10%nat ->
          gauss5 Br2opt center 0 height center width 0 l3 w3 = height).
Proof.
  intros h c w _.
  assert (Hpeak : gaussian c h c w = h).
  { unfold gaussian.
    replace ((- ((c - c) ^ 2)) / (2 * w ^ 2)) with 0 by (unfold Rdiv; ring).
    rewrite exp_0. ring. }
  split; [ exact Hpeak | ].
  intros B l3 w3 _. rewrite gauss5_peaks, Hpeak. unfold gaussian. ring.
Qed.

Lemma gaussian_at_center_witness :
  20 > 0 /\ gaussian 400 0.7 400 20 = 0.7.
Proof.
  split; [ lra | ].
  apply (gaussian_at_center 0.7 400 20). lra.
Defined.

(** ** C10: the baseline offset is dropped *)

(** C10.  The first fit has ten parameters: its initial guess has ten
    entries, its model three peaks and a baseline offset, its answer
    [Br2opt] ten values.  [gauss5] and [gauss5_scale] read only
    [Br2opt[0..8]]: [gauss5_scale wl 1 0] is the sum of the three fitted
    peaks, the full first-stage model is that sum plus [Br2opt[9]], so the
    two differ wherever the fitted offset is not zero, and both functions are
    unchanged when only [Br2opt[9]] changes. *)
Theorem baseline_offset_dropped :
  forall (S : Solver) (WLs : list R) (train1 : DataFrame)
         (Br2opt g5opt : list R) (wl : R),
    fit_Br2 S WLs train1 = Ok Br2opt ->
    length g5opt = 7%nat ->
    length p0_Br2 = 10%nat /\ nparams gaussian3_fn = 10%nat
    /\ length Br2opt = 10%nat
    /\ gauss5_scale Br2opt g5opt wl 1 0 =
         gaussian wl Br2opt.[0] Br2opt.[1] Br2opt.[2] +
         gaussian wl Br2opt.[3] Br2opt.[4] Br2opt.[5] +
         gaussian wl Br2opt.[6] Br2opt.[7] Br2opt.[8]
    /\ call gaussian3_fn wl Br2opt =
         gauss5_scale Br2opt g5opt wl 1 0 + Br2opt.[9]
    /\ (Br2opt.[9] <> 0 ->
        gauss5_scale Br2opt g5opt wl 1 0 <> call gaussian3_fn wl Br2opt)
    /\ (forall Br2opt',
          length Br2opt' = 10%nat ->
          (forall i, (i < 9)%nat -> Br2opt'.[i] = Br2opt.[i]) ->
          forall h1 h2 l2 w2 h3 l3 w3,
            gauss5 Br2opt' wl h1 h2 l2 w2 h3 l3 w3 =
              gauss5 Br2opt wl h1 h2 l2 w2 h3 l3 w3
            /\ gauss5_scale Br2opt' g5opt wl h1 h2 =
                 gauss5_scale Br2opt g5opt wl h1 h2).
Proof.
  intros S W t1 B g wl HB _.
  assert (Hfull : call gaussian3_fn wl B = gauss5_scale B g wl 1 0 + B.[9]).
  { rewrite gauss5_scale_peaks. cbn [call gaussian3_fn].
    unfold gaussian3. ring. }
  split; [ reflexivity | ]. split; [ reflexivity | ].
  split; [ exact (fit_Br2_shape S W t1 B HB) | ].
  split; [ rewrite gauss5_scale_peaks; ring | ].
  split; [ exact Hfull | ].
  split.
  - intros Hoff Heq. rewrite Hfull in Heq. lra.
  - intros B' _ Hsame h1 h2 l2 w2 h3 l3 w3.
    unfold gauss5, gauss5_scale.
    rewrite !Hsame by lia. split; reflexivity.
Qed.

Lemma baseline_offset_dropped_witness :
  fit_Br2 guess_solver sample_WLs sample_frame = Ok p0_Br2 /\
  length NaBr3_p0 = 7%nat /\
  p0_Br2.[9] <> 0 /\
  gauss5_scale p0_Br2 NaBr3_p0 400 1 0 <> call gaussian3_fn 400 p0_Br2.
Proof.
  assert (Hoff : p0_Br2.[9] <> 0) by (change p0_Br2.[9] with 0.02; lra).
  split; [ exact sample_fit_Br2 | ].
  split; [ reflexivity | ].
  split; [ exact Hoff | ].
  destruct (baseline_offset_dropped guess_solver sample_WLs sample_frame
              p0_Br2 NaBr3_p0 400 sample_fit_Br2 eq_refl)
    as (_ & _ & _ & _ & _ & Hdiff & _).
  exact (Hdiff Hoff).
Defined.

(** * Further properties of the script *)

(** ** Window selection *)

Lemma first_above_none (a : list R) (bound : R) :
  forall i, Forall (fun x => x <= bound) a ->
            Array.first_above_from a bound i = Raise IndexError.
Proof.
  induction a as [| x a IH]; intros i H.
  - reflexivity.
  - inversion H as [| ? ? Hx Ha]; subst. simpl.
    rewrite (gtb_false x bound Hx). now apply IH.
Qed.

Lemma first_above_from_monotone (a : list R) (lo hi : R) :
  lo <= hi ->
  forall i k2,
    Array.first_above_from a hi i = Ok k2 ->
    exists k1, Array.first_above_from a lo i = Ok k1 /\ (i <= k1 <= k2)%nat.
Proof.
  intros Hle. induction a as [| x a IH]; intros i k2 H; simpl in H.
  - discriminate H.
  - simpl. unfold Array.gtb in *.
    destruct (Rlt_dec hi x) as [Hhi | Hhi].
    + injection H as <-. exists i.
      destruct (Rlt_dec lo x); [ split; [ reflexivity | lia ] | lra ].
    + destruct (IH _ _ H) as (k1 & Hk1 & Hrange).
      destruct (Rlt_dec lo x).
      * exists i. split; [ reflexivity | lia ].
      * exists k1. split; [ exact Hk1 | lia ].
Qed.

(** X1.  In every stage the lower window index is found whenever the upper
    one is, and it is not larger: the first wavelength above [lo] comes no
    later than the first wavelength above [hi >= lo], which is a position
    of the axis. *)
Theorem window_bounds_ordered :
  forall (axis : list R) (lo hi : R) (L2 : nat),
    lo <= hi ->
    Array.first_above axis hi = Ok L2 ->
    exists L1, Array.first_above axis lo = Ok L1 /\
               (L1 <= L2)%nat /\ (L2 < length axis)%nat.
Proof.
  intros axis lo hi L2 Hle H2.
  destruct (first_above_from_monotone axis lo hi Hle 0 L2 H2) as (L1 & H1 & Hr).
  exists L1. split; [ exact H1 | split; [ lia | ] ].
  apply first_above_from_Ok in H2 as (pre & x & post & -> & -> & _).
  rewrite length_app. simpl. lia.
Qed.

Lemma window_bounds_ordered_witness :
  360 <= 650 /\
  exists L1, Array.first_above sample_WLs 360 = Ok L1 /\
             (L1 <= 15)%nat /\ (15 < length sample_WLs)%nat.
Proof.
  assert (H : 360 <= 650) by lra.
  split; [ exact H | ].
  exact (window_bounds_ordered sample_WLs 360 650 15 H sample_first_above_650).
Defined.

Lemma strictly_increasing_tail (x : R) (a : list R) :
  strictly_increasing (x :: a) -> strictly_increasing a.
Proof. destruct a as [| y a]; simpl; [ trivial | intros [_ H]; exact H ]. Qed.

Lemma strictly_increasing_above_head (a : list R) :
  forall x, strictly_increasing (x :: a) -> Forall (fun y => x < y) a.
Proof.
  induction a as [| y a IH]; intros x H.
  - constructor.
  - destruct H as [Hxy Hrest]. constructor; [ exact Hxy | ].
    apply (Forall_impl _ (P := fun z => y < z)); [ intros z Hz; lra | ].
    now apply IH.
Qed.

Lemma filter_window_all_above (lo hi : R) (a : list R) :
  Forall (fun y => hi < y) a -> filter (in_window lo hi) a = [].
Proof.
  induction 1 as [| y a Hy _ IH]; simpl.
  - reflexivity.
  - unfold in_window. rewrite (gtb_true y hi Hy), Bool.andb_false_r. exact IH.
Qed.

Lemma window_after_lower_bound (lo hi : R) (a : list R) :
  strictly_increasing a ->
  Forall (fun y => lo < y) a ->
  forall i k2,
    Array.first_above_from a hi i = Ok k2 ->
    firstn (k2 - i) a = filter (in_window lo hi) a.
Proof.
  induction a as [| x a IH]; intros Hinc Hlo i k2 H; simpl in H.
  - discriminate H.
  - inversion Hlo as [| ? ? Hx Ha]; subst.
    unfold Array.gtb in H. destruct (Rlt_dec hi x) as [Hhi | Hhi].
    + injection H as <-. rewrite Nat.sub_diag. simpl.
      unfold in_window at 1. rewrite (gtb_true x hi Hhi), Bool.andb_false_r.
      symmetry. apply filter_window_all_above.
      apply (Forall_impl _ (P := fun z => x < z)); [ intros z Hz; lra | ].
      now apply strictly_increasing_above_head.
    + assert (Hk : (Datatypes.S i <= k2)%nat).
      { apply first_above_from_Ok in H as (pre & y & post & _ & -> & _). lia. }
      replace (k2 - i)%nat with (Datatypes.S (k2 - Datatypes.S i)) by lia.
      simpl. unfold in_window at 1.
      rewrite (gtb_true x lo Hx), (gtb_false x hi) by lra. simpl.
      f_equal. apply IH; [ now apply strictly_increasing_tail in Hinc | exact Ha | exact H ].
Qed.

Lemma window_between_bounds (lo hi : R) (a : list R) :
  strictly_increasing a ->
  lo <= hi ->
  forall i k1 k2,
    Array.first_above_from a lo i = Ok k1 ->
    Array.first_above_from a hi i = Ok k2 ->
    firstn (k2 - k1) (skipn (k1 - i) a) = filter (in_window lo hi) a.
Proof.
  intros Hinc Hle. induction a as [| x a IH]; intros i k1 k2 H1 H2.
  - discriminate H1.
  - destruct (Rlt_dec lo x) as [Hlo | Hlo].
    + assert (Hk1 : k1 = i).
      { simpl in H1. rewrite (gtb_true x lo Hlo) in H1. now injection H1. }
      subst k1. rewrite Nat.sub_diag. cbn [skipn].
      apply (window_after_lower_bound lo hi (x :: a) Hinc); [ | exact H2 ].
      constructor; [ exact Hlo | ].
      apply (Forall_impl _ (P := fun z => x < z)); [ intros z Hz; lra | ].
      now apply strictly_increasing_above_head.
    + simpl in H1, H2.
      rewrite (gtb_false x lo) in H1 by lra.
      rewrite (gtb_false x hi) in H2 by lra.
      assert (Hk : (Datatypes.S i <= k1)%nat).
      { apply first_above_from_Ok in H1 as (pre & y & post & _ & -> & _). lia. }
      replace (k1 - i)%nat with (Datatypes.S (k1 - Datatypes.S i)) by lia.
      cbn [skipn filter]. unfold in_window at 1.
      rewrite (gtb_false x lo) by lra. cbn [andb].
      apply IH; [ now apply strictly_increasing_tail in Hinc | exact H1 | exact H2 ].
Qed.

(** X2.  On a strictly increasing wavelength axis the window the fits use,
    [WLs[L1:L2]], holds exactly the wavelengths with [lo < wl <= hi], in
    order. *)
Theorem window_of_increasing_axis :
  forall (axis : list R) (lo hi : R) (L1 L2 : nat),
    strictly_increasing axis ->
    lo <= hi ->
    Array.first_above axis lo = Ok L1 ->
    Array.first_above axis hi = Ok L2 ->
    Array.slice axis L1 L2 = filter (in_window lo hi) axis.
Proof.
  intros axis lo hi L1 L2 Hinc Hle H1 H2. unfold Array.slice.
  rewrite <- (Nat.sub_0_r L1) at 2.
  exact (window_between_bounds lo hi axis Hinc Hle 0 L1 L2 H1 H2).
Qed.

Lemma sample_WLs_increasing : strictly_increasing sample_WLs.
Proof. unfold sample_WLs. cbn [strictly_increasing]. repeat split; lra. Qed.

Lemma window_of_increasing_axis_witness :
  strictly_increasing sample_WLs /\ 360 <= 650 /\
  Array.slice sample_WLs 3 15 = filter (in_window 360 650) sample_WLs.
Proof.
  assert (H : 360 <= 650) by lra.
  split; [ exact sample_WLs_increasing | split; [ exact H | ] ].
  exact (window_of_increasing_axis sample_WLs 360 650 3 15
           sample_WLs_increasing H
           sample_first_above_360 sample_first_above_650).
Defined.

(** X3.  For a spectrum that has one absorbance per wavelength of the
    axis, the two arrays handed to the solver have the same length,
    [L2 - L1], and their entries at the same position are the wavelength and
    the absorbance at the same position [L1 + k] of the axis. *)
Theorem window_data_aligned :
  forall (axis ys : list R) (lo hi : R) (L1 L2 : nat),
    lo <= hi ->
    Array.first_above axis lo = Ok L1 ->
    Array.first_above axis hi = Ok L2 ->
    length ys = length axis ->
    length (Array.slice axis L1 L2) = (L2 - L1)%nat
    /\ length (Array.slice ys L1 L2) = (L2 - L1)%nat
    /\ (forall k, (k < L2 - L1)%nat ->
          (Array.slice axis L1 L2).[k] = axis.[L1 + k] /\
          (Array.slice ys L1 L2).[k] = ys.[L1 + k]).
Proof.
  intros axis ys lo hi L1 L2 Hle H1 H2 Hlen.
  destruct (first_above_from_monotone axis lo hi Hle 0 L2 H2) as (L1' & H1' & Hord).
  unfold Array.first_above in H1. rewrite H1 in H1'. injection H1' as <-.
  assert (Hin : (L2 < length axis)%nat).
  { apply first_above_from_Ok in H2 as (pre & x & post & -> & -> & _).
    rewrite length_app. simpl. lia. }
  unfold Array.slice, Array.get.
  rewrite !length_firstn, !length_skipn, Hlen.
  split; [ lia | split; [ lia | ] ].
  intros k Hk. rewrite !nth_firstn, !nth_skipn.
  apply Nat.ltb_lt in Hk. rewrite Hk. split; reflexivity.
Qed.

Lemma window_data_aligned_witness :
  360 <= 650 /\ length spectrum_a = length sample_WLs /\
  length (Array.slice sample_WLs 3 15) = (15 - 3)%nat /\
  length (Array.slice spectrum_a 3 15) = (15 - 3)%nat.
Proof.
  assert (H : 360 <= 650) by lra.
  split; [ exact H | split; [ reflexivity | ] ].
  destruct (window_data_aligned sample_WLs spectrum_a 360 650 3 15 H
              sample_first_above_360 sample_first_above_650 eq_refl)
    as (Hx & Hy & _).
  split; [ exact Hx | exact Hy ].
Defined.

(** ** Empty and short inputs *)

Lemma first_above_Exists (axis : list R) (lo hi : R) :
  lo <= hi ->
  Exists (fun wl => hi < wl) axis ->
  exists L1 L2,
    Array.first_above axis lo = Ok L1 /\ Array.first_above axis hi = Ok L2.
Proof.
  intros Hle Hex.
  destruct (first_above_from_Exists axis hi 0 Hex) as [L2 H2].
  destruct (first_above_from_monotone axis lo hi Hle 0 L2 H2) as (L1 & H1 & _).
  now exists L1, L2.
Qed.

(** X4.  When the wavelength axis of the first training set holds no value
    above 650 (an axis that ends at 650 nm included), training raises
    [IndexError] and so does every call of [get_concs], whatever the
    dataset and before the solver or any spectrum is touched. *)
Theorem no_wavelength_above_650 :
  forall (S : Solver) (G : Trained) (dataset train1 train2 : DataFrame),
    (Forall (fun wl => wl <= 650) (WLs G) ->
     get_concs S G dataset = Raise IndexError)
    /\ (Forall (fun wl => wl <= 650) (index_tail train1) ->
        train S train1 train2 = Raise IndexError).
Proof.
  intros S G ds t1 t2. split; intros Hall.
  - unfold get_concs, Array.first_above.
    destruct (Array.first_above_from (WLs G) 360 0) as [L1 | e] eqn:H1.
    + cbn [bind]. now rewrite (first_above_none _ 650 0 Hall).
    + apply first_above_from_Raise in H1 as [-> _]. reflexivity.
  - unfold train, fit_Br2, Array.first_above.
    destruct (Array.first_above_from (index_tail t1) 320 0) as [L1 | e] eqn:H1.
    + cbn [bind]. now rewrite (first_above_none _ 650 0 Hall).
    + apply first_above_from_Raise in H1 as [-> _]. reflexivity.
Qed.

Lemma no_wavelength_above_650_witness :
  Forall (fun wl => wl <= 650) [300; 400; 500; 650] /\
  get_concs guess_solver
    (mkTrained [300; 400; 500; 650] p0_Br2 NaBr3_p0 [] [] [] [1; 1])
    sample_frame = Raise IndexError.
Proof.
  assert (H : Forall (fun wl => wl <= 650) [300; 400; 500; 650])
    by (repeat constructor; lra).
  split; [ exact H | ].
  apply (no_wavelength_above_650 guess_solver
           (mkTrained [300; 400; 500; 650] p0_Br2 NaBr3_p0 [] [] [] [1; 1])
           sample_frame sample_frame sample_frame).
  exact H.
Defined.

(** X5.  Frames without spectra, on an axis that reaches above 650 nm:
    training raises [KeyError] at [train1[0]], while [get_concs] returns
    three empty arrays without consulting the solver. *)
Theorem frames_without_spectra :
  forall (S : Solver) (G : Trained) (dataset train1 train2 : DataFrame),
    (columns train1 = [] ->
     Exists (fun wl => 650 < wl) (index_tail train1) ->
     train S train1 train2 = Raise KeyError)
    /\ (columns dataset = [] ->
        Exists (fun wl => 650 < wl) (WLs G) ->
        get_concs S G dataset = Ok ([], [], [])).
Proof.
  intros S G ds t1 t2. split; intros Hcols Hex.
  - assert (H320 : 320 <= 650) by lra.
    destruct (first_above_Exists _ 320 650 H320 Hex) as (L1 & L2 & H1 & H2).
    unfold train, fit_Br2, column. rewrite H1, H2, Hcols. reflexivity.
  - assert (H360 : 360 <= 650) by lra.
    destruct (first_above_Exists _ 360 650 H360 Hex) as (L1 & L2 & H1 & H2).
    rewrite get_concs_mapM, H1, H2, Hcols. reflexivity.
Qed.

Lemma frames_without_spectra_witness :
  Exists (fun wl => 650 < wl) (WLs sample_trained) /\
  get_concs stalling_solver sample_trained (mkFrame sample_WLs [])
    = Ok ([], [], []).
Proof.
  assert (H : Exists (fun wl => 650 < wl) (WLs sample_trained)).
  { cbn [WLs sample_trained]. unfold sample_WLs.
    do 15 apply Exists_cons_tl. apply Exists_cons_hd. lra. }
  split; [ exact H | ].
  apply (frames_without_spectra stalling_solver sample_trained
           (mkFrame sample_WLs []) sample_frame sample_frame);
    [ reflexivity | exact H ].
Defined.

(** ** What [get_concs] can raise *)

Lemma mapM_Raise_inv {A B : Type} (f : A -> result B) (l : list A) (e : exn) :
  mapM f l = Raise e -> exists x, In x l /\ f x = Raise e.
Proof.
  induction l as [| x l IH]; simpl; intros H.
  - discriminate H.
  - destruct (f x) as [y | e'] eqn:Hx.
    + destruct (mapM f l) as [ys | e''] eqn:Hl; [ discriminate H | ].
      simpl in H. injection H as ->.
      destruct (IH eq_refl) as (x' & Hin & Hx').
      exists x'. split; [ now right | exact Hx' ].
    + simpl in H. injection H as ->. exists x. split; [ now left | exact Hx ].
Qed.

(** One turn of an amplitude loop raises either what the solver raised or,
    the solver having answered, the [ValueError] of the plot. *)
Lemma scale_fit_Raise_inv (S : Solver) (WLs Br2opt g5opt : list R)
    (L1 L2 : nat) (c : R * list R) (e : exn) :
  scale_fit S WLs Br2opt g5opt L1 L2 c = Raise e ->
  curve_fit S (gauss5_scale_fn Br2opt g5opt)
    (Array.slice WLs L1 L2) (Array.slice (snd c) L1 L2) None = Raise e
  \/ (e = ValueError /\
      window_matches WLs L1 L2 c = false /\
      exists a b,
        curve_fit S (gauss5_scale_fn Br2opt g5opt)
          (Array.slice WLs L1 L2) (Array.slice (snd c) L1 L2) None
        = Ok [a; b]).
Proof.
  unfold scale_fit. intros H.
  destruct (curve_fit S _ _ _ None) as [popt | e'] eqn:Hfit.
  - pose proof (curve_fit_shape _ _ _ _ _ _ Hfit) as Hlen.
    cbn [nparams gauss5_scale_fn] in Hlen.
    destruct popt as [| a [| b [| ? ?]]]; try discriminate Hlen.
    cbn [bind] in H. unfold plot in H. fold (window_matches WLs L1 L2 c) in H.
    destruct (window_matches WLs L1 L2 c) eqn:Hw; [ discriminate H | ].
    cbn [bind] in H. injection H as <-. right.
    split; [ reflexivity | split; [ reflexivity | now exists a, b ] ].
  - cbn [bind] in H. injection H as ->. now left.
Qed.

(** X6.  [get_concs] raises only in three ways: [IndexError] because the
    training axis holds no wavelength above 650; the exception the solver
    raised for one of the spectra of the dataset; or [ValueError] from
    plotting a spectrum, already fitted, whose window has not the length of
    the wavelength window.  Reading a column, unpacking the solver's answer
    and storing the amplitudes never raise. *)
Theorem get_concs_raises_only :
  forall (S : Solver) (G : Trained) (dataset : DataFrame) (e : exn),
    get_concs S G dataset = Raise e ->
    (e = IndexError /\ Forall (fun wl => wl <= 650) (WLs G))
    \/ (exists L1 L2 c,
          Array.first_above (WLs G) 360 = Ok L1 /\
          Array.first_above (WLs G) 650 = Ok L2 /\
          In c (columns dataset) /\
          curve_fit S (gauss5_scale_fn (Br2opt G) (g5opt G))
            (Array.slice (WLs G) L1 L2) (Array.slice (snd c) L1 L2) None
          = Raise e)
    \/ (e = ValueError /\
        exists L1 L2 c a b,
          Array.first_above (WLs G) 360 = Ok L1 /\
          Array.first_above (WLs G) 650 = Ok L2 /\
          In c (columns dataset) /\
          curve_fit S (gauss5_scale_fn (Br2opt G) (g5opt G))
            (Array.slice (WLs G) L1 L2) (Array.slice (snd c) L1 L2) None
          = Ok [a; b] /\
          length (Array.slice (WLs G) L1 L2)
            <> length (Array.slice (snd c) L1 L2)).
Proof.
  intros S G ds e H. rewrite get_concs_mapM in H.
  unfold Array.first_above in *.
  destruct (Array.first_above_from (WLs G) 360 0) as [L1 | e1] eqn:H1.
  - cbn [bind] in H.
    destruct (Array.first_above_from (WLs G) 650 0) as [L2 | e2] eqn:H2.
    + cbn [bind] in H. right.
      destruct (mapM _ (columns ds)) as [rs | e3] eqn:Hrs; [ discriminate H | ].
      simpl in H. injection H as ->.
      apply mapM_Raise_inv in Hrs as (c & Hin & Hc).
      apply scale_fit_Raise_inv in Hc as [Hc | (-> & Hw & a & b & Hc)].
      * left. exists L1, L2, c. repeat split; assumption.
      * right. split; [ reflexivity | ].
        exists L1, L2, c, a, b. repeat split; try assumption.
        now apply Nat.eqb_neq.
    + simpl in H. injection H as ->.
      apply first_above_from_Raise in H2 as [-> Hall]. left. now split.
  - simpl in H. injection H as ->.
    apply first_above_from_Raise in H1 as [-> Hall]. left.
    split; [ reflexivity | ].
    apply (Forall_impl _ (P := fun wl => wl <= 360)); [ intros wl Hwl; lra | exact Hall ].
Qed.

(** A dataset measured on ten wavelengths only. *)
Lemma get_concs_raises_only_witness :
  get_concs guess_solver sample_trained
    (mkFrame sample_WLs [(0, firstn 10 spectrum_a)]) = Raise ValueError /\
  exists L1 L2 c a b,
    Array.first_above (WLs sample_trained) 360 = Ok L1 /\
    Array.first_above (WLs sample_trained) 650 = Ok L2 /\
    In c (columns (mkFrame sample_WLs [(0, firstn 10 spectrum_a)])) /\
    curve_fit guess_solver
      (gauss5_scale_fn (Br2opt sample_trained) (g5opt sample_trained))
      (Array.slice (WLs sample_trained) L1 L2) (Array.slice (snd c) L1 L2) None
    = Ok [a; b] /\
    length (Array.slice (WLs sample_trained) L1 L2)
      <> length (Array.slice (snd c) L1 L2).
Proof.
  assert (H : get_concs guess_solver sample_trained
                (mkFrame sample_WLs [(0, firstn 10 spectrum_a)])
              = Raise ValueError).
  { rewrite get_concs_mapM. cbn [WLs sample_trained].
    autorewrite with sample_runs. reflexivity. }
  split; [ exact H | ].
  destruct (get_concs_raises_only guess_solver sample_trained _ ValueError H)
    as [[Habs _] | [(L1 & L2 & c & _ & _ & Hin & Hraise) | [_ Hplot]]].
  - discriminate Habs.
  - exfalso. destruct Hin as [<- | []]. discriminate Hraise.
  - exact Hplot.
Defined.

(** ** The two model functions *)

(** X7.  [gauss5_scale] is [gauss5] with the two fitted tribromide peaks
    kept in place and their heights multiplied by [hNaBr3]; at the
    amplitudes [(g5opt[0], 1)] it is the curve the second fit found,
    [gauss5(WL, *g5opt)]. *)
Theorem gauss5_scale_is_gauss5_with_scaled_heights :
  forall (Br2opt g5opt : list R) (WL hBr2 hNaBr3 : R),
    length Br2opt = 10%nat ->
    length g5opt = 7%nat ->
    gauss5_scale Br2opt g5opt WL hBr2 hNaBr3 =
      gauss5 Br2opt WL hBr2
        (hNaBr3 * g5opt.[1]) g5opt.[2] g5opt.[3]
        (hNaBr3 * g5opt.[4]) g5opt.[5] g5opt.[6]
    /\ gauss5_scale Br2opt g5opt WL g5opt.[0] 1 =
         call (gauss5_fn Br2opt) WL g5opt.
Proof.
  intros B g WL a b _ _. cbn [call gauss5_fn].
  unfold gauss5_scale, gauss5. split; ring.
Qed.

Lemma gauss5_scale_is_gauss5_with_scaled_heights_witness :
  length p0_Br2 = 10%nat /\ length NaBr3_p0 = 7%nat /\
  gauss5_scale p0_Br2 NaBr3_p0 400 NaBr3_p0.[0] 1 =
    call (gauss5_fn p0_Br2) 400 NaBr3_p0.
Proof.
  split; [ reflexivity | split; [ reflexivity | ] ].
  apply (gauss5_scale_is_gauss5_with_scaled_heights p0_Br2 NaBr3_p0 400 1 1);
    reflexivity.
Defined.

Lemma peak_factor_range (x c w : R) :
  w <> 0 -> 0 < exp ((- ((x - c) ^ 2)) / (2 * w ^ 2)) <= 1.
Proof.
  intros Hw. split; [ apply exp_pos | ].
  rewrite <- exp_0.
  assert (Hd : 0 < 2 * w ^ 2)
    by (simpl; destruct (Rdichotomy w 0 Hw); nra).
  assert (Hi : 0 < / (2 * w ^ 2)) by now apply Rinv_0_lt_compat.
  assert (Hn : 0 <= (x - c) ^ 2) by apply pow2_ge_0.
  assert (He : (- ((x - c) ^ 2)) / (2 * w ^ 2) <= 0).
  { unfold Rdiv. set (N := (x - c) ^ 2) in *. set (D := / (2 * w ^ 2)) in *.
    nra. }
  destruct He as [He | He].
  - left. now apply exp_increasing.
  - rewrite He. right. reflexivity.
Qed.

Lemma peak_term_bounded (h x c w : R) :
  w <> 0 ->
  Rabs (h * exp ((- ((x - c) ^ 2)) / (2 * w ^ 2))) <= Rabs h.
Proof.
  intros Hw. destruct (peak_factor_range x c w Hw) as [Hpos Hle].
  rewrite Rabs_mult, (Rabs_pos_eq (exp _)) by lra.
  pose proof (Rabs_pos h). nra.
Qed.

(** X8.  With non-zero widths, the absorbance [gauss5_scale] predicts is
    bounded at every wavelength by the amplitudes times the sums of the
    frozen peak heights, in absolute value; and with non-negative heights
    and amplitudes it is never negative. *)
Theorem gauss5_scale_bounded :
  forall (Br2opt g5opt : list R) (WL hBr2 hNaBr3 : R),
    length Br2opt = 10%nat ->
    length g5opt = 7%nat ->
    Br2opt.[2] <> 0 -> Br2opt.[5] <> 0 -> Br2opt.[8] <> 0 ->
    g5opt.[3] <> 0 -> g5opt.[6] <> 0 ->
    Rabs (gauss5_scale Br2opt g5opt WL hBr2 hNaBr3) <=
      Rabs hBr2 * (Rabs Br2opt.[0] + Rabs Br2opt.[3] + Rabs Br2opt.[6]) +
      Rabs hNaBr3 * (Rabs g5opt.[1] + Rabs g5opt.[4])
    /\ (0 <= hBr2 -> 0 <= hNaBr3 ->
        0 <= Br2opt.[0] -> 0 <= Br2opt.[3] -> 0 <= Br2opt.[6] ->
        0 <= g5opt.[1] -> 0 <= g5opt.[4] ->
        0 <= gauss5_scale Br2opt g5opt WL hBr2 hNaBr3).
Proof.
  intros B g WL a b _ _ Hw1 Hw2 Hw3 Hw4 Hw5. unfold gauss5_scale.
  pose proof (peak_term_bounded B.[0] WL B.[1] B.[2] Hw1) as H1.
  pose proof (peak_term_bounded B.[3] WL B.[4] B.[5] Hw2) as H2.
  pose proof (peak_term_bounded B.[6] WL B.[7] B.[8] Hw3) as H3.
  pose proof (peak_term_bounded g.[1] WL g.[2] g.[3] Hw4) as H4.
  pose proof (peak_term_bounded g.[4] WL g.[5] g.[6] Hw5) as H5.
  destruct (peak_factor_range WL B.[1] B.[2] Hw1) as [E1 _].
  destruct (peak_factor_range WL B.[4] B.[5] Hw2) as [E2 _].
  destruct (peak_factor_range WL B.[7] B.[8] Hw3) as [E3 _].
  destruct (peak_factor_range WL g.[2] g.[3] Hw4) as [E4 _].
  destruct (peak_factor_range WL g.[5] g.[6] Hw5) as [E5 _].
  set (p1 := B.[0] * exp _) in *. set (p2 := B.[3] * exp _) in *.
  set (p3 := B.[6] * exp _) in *. set (q1 := g.[1] * exp _) in *.
  set (q2 := g.[4] * exp _) in *.
  split.
  - eapply Rle_trans; [ apply Rabs_triang | ].
    rewrite !Rabs_mult.
    pose proof (Rabs_triang (p1 + p2) p3) as T1.
    pose proof (Rabs_triang p1 p2) as T2.
    pose proof (Rabs_triang q1 q2) as T3.
    pose proof (Rabs_pos a). pose proof (Rabs_pos b).
    apply Rplus_le_compat; apply Rmult_le_compat_l; lra.
  - intros Ha Hb HB0 HB3 HB6 Hg1 Hg4.
    assert (0 <= p1) by (subst p1; nra).
    assert (0 <= p2) by (subst p2; nra).
    assert (0 <= p3) by (subst p3; nra).
    assert (0 <= q1) by (subst q1; nra).
    assert (0 <= q2) by (subst q2; nra).
    nra.
Qed.

Lemma gauss5_scale_bounded_witness :
  Rabs (gauss5_scale p0_Br2 NaBr3_p0 400 1 1) <=
    Rabs 1 * (Rabs p0_Br2.[0] + Rabs p0_Br2.[3] + Rabs p0_Br2.[6]) +
    Rabs 1 * (Rabs NaBr3_p0.[1] + Rabs NaBr3_p0.[4]).
Proof.
  apply (gauss5_scale_bounded p0_Br2 NaBr3_p0 400 1 1);
    try reflexivity;
    [ change p0_Br2.[2] with 30.0 | change p0_Br2.[5] with 20.0
    | change p0_Br2.[8] with 20.0 | change NaBr3_p0.[3] with 20
    | change NaBr3_p0.[6] with 20 ]; lra.
Defined.

(** X9.  Every peak term is even about its centre: at the same distance
    above and below the centre it has the same value.  This holds for the
    spec's [gaussian] and for the peak term [gauss5] writes inline. *)
Theorem peak_symmetric_about_center :
  forall (height center width d : R),
    width > 0 ->
    gaussian (center + d) height center width =
      gaussian (center - d) height center width
    /\ (forall Br2opt l3 w3,
          length Br2opt = 10%nat ->
          gauss5 Br2opt (center + d) 0 height center width 0 l3 w3 =
          gauss5 Br2opt (center - d) 0 height center width 0 l3 w3).
Proof.
  intros h c w d _.
  assert (Hpeak : gaussian (c + d) h c w = gaussian (c - d) h c w).
  { unfold gaussian. do 3 f_equal. ring. }
  split; [ exact Hpeak | ].
  intros B l3 w3 _. rewrite !gauss5_peaks, Hpeak. unfold gaussian. ring.
Qed.

Lemma peak_symmetric_about_center_witness :
  20 > 0 /\ gaussian (400 + 15) 0.7 400 20 = gaussian (400 - 15) 0.7 400 20.
Proof.
  split; [ lra | ].
  apply (peak_symmetric_about_center 0.7 400 20 15). lra.
Defined.

(** ** Predicting on the calibration set *)

Lemma train_Ok_inv (S : Solver) (train1 train2 : DataFrame) (G : Trained) :
  train S train1 train2 = Ok G ->
  exists Br2opt g5opt L1 L2 rs l,
    Array.first_above (index_tail train1) 360 = Ok L1 /\
    Array.first_above (index_tail train1) 650 = Ok L2 /\
    mapM (scale_fit S (index_tail train1) Br2opt g5opt L1 L2) (columns train2)
      = Ok rs /\
    G = mkTrained (index_tail train1) Br2opt g5opt (map fst rs) (map snd rs)
          (compute_NaBr3_conc (map fst rs)) l.
Proof.
  intros H. rewrite train_mapM in H.
  destruct (fit_Br2 S _ train1) as [B |]; [ | discriminate H ].
  cbn [bind] in H.
  destruct (fit_NaBr3 S _ B train1) as [g |]; [ | discriminate H ].
  cbn [bind] in H.
  destruct (Array.first_above _ 360) as [L1 |]; [ | discriminate H ].
  destruct (Array.first_above _ 650) as [L2 |]; [ | discriminate H ].
  cbn [bind] in H.
  destruct (mapM _ (columns train2)) as [rs |] eqn:Hrs; [ | discriminate H ].
  cbn [bind] in H.
  destruct (fit_line S _ _) as [l |]; [ | discriminate H ].
  cbn [fmap bind] in H. injection H as <-.
  exists B, g, L1, L2, rs, l. repeat split. exact Hrs.
Qed.

Lemma get_concs_after_train (S : Solver) (train1 train2 : DataFrame)
    (G : Trained) :
  train S train1 train2 = Ok G ->
  get_concs S G train2 =
    Ok (map (fun t => t / 60) (first_row train2),
        map (fun h => Br2_conc_i * h) (hBr2 G),
        map (fun h => h / (line G).[0]) (hNaBr3 G)).
Proof.
  intros H.
  destruct (train_Ok_inv S train1 train2 G H)
    as (B & g & L1 & L2 & rs & l & H1 & H2 & Hrs & ->).
  rewrite get_concs_mapM. cbn [WLs Br2opt g5opt line hBr2 hNaBr3].
  rewrite H1, H2. cbn [bind]. rewrite Hrs. cbn [bind].
  unfold first_row. now rewrite !map_map.
Qed.

(** X10.  After a training run that completes, [get_concs] applied to the
    calibration set itself cannot fail, and the bromine concentration it
    returns for each spectrum is the initial concentration minus the
    tribromide concentration the calibration derived for that spectrum: the
    two add up to [Br2_conc_i]. *)
Theorem prediction_on_calibration_set :
  forall (S : Solver) (train1 train2 : DataFrame) (G : Trained),
    train S train1 train2 = Ok G ->
    get_concs S G train2 =
      Ok (map (fun t => t / 60) (first_row train2),
          map (fun c => Br2_conc_i - c) (NaBr3_conc G),
          map (fun h => h / (line G).[0]) (hNaBr3 G)).
Proof.
  intros S t1 t2 G H. rewrite (get_concs_after_train S t1 t2 G H).
  destruct (train_Ok_inv S t1 t2 G H) as (B & g & L1 & L2 & rs & l & _ & _ & _ & ->).
  cbn [hBr2 NaBr3_conc hNaBr3 line]. unfold compute_NaBr3_conc.
  rewrite (map_map (fun h => Br2_conc_i * (1.0 - h))).
  rewrite (map_ext (fun h => Br2_conc_i - Br2_conc_i * (1.0 - h))
                   (fun h => Br2_conc_i * h)) by (intros a; lra).
  reflexivity.
Qed.

Lemma prediction_on_calibration_set_witness :
  train guess_solver sample_frame sample_frame = Ok sample_trained /\
  get_concs guess_solver sample_trained sample_frame =
    Ok (map (fun t => t / 60) (first_row sample_frame),
        map (fun c => Br2_conc_i - c) (NaBr3_conc sample_trained),
        map (fun h => h / (line sample_trained).[0]) (hNaBr3 sample_trained)).
Proof.
  split; [ exact sample_training_run | ].
  exact (prediction_on_calibration_set guess_solver sample_frame sample_frame
           sample_trained sample_training_run).
Defined.

Lemma invert_line (slope intercept : R) (hs cs : list R) :
  slope <> 0 ->
  Forall2 (fun h c => h = linear c slope intercept) hs cs ->
  map (fun h => h / slope) hs = map (fun c => c + intercept / slope) cs.
Proof.
  intros Hs. induction 1 as [| h c hs cs Hh _ IH]; simpl.
  - reflexivity.
  - rewrite IH. f_equal. rewrite Hh. unfold linear. now field.
Qed.

(** X11.  [get_concs] inverts the calibration line by dividing by the slope
    only.  When the fitted tribromide amplitudes of the calibration set lie
    exactly on the fitted line, the tribromide concentrations that
    [get_concs] returns for the calibration set are the calibration
    concentrations shifted by [line[1] / line[0]]: they are recovered
    exactly only when the intercept is zero. *)
Theorem calibration_line_inverted_by_slope_only :
  forall (S : Solver) (train1 train2 : DataFrame) (G : Trained),
    train S train1 train2 = Ok G ->
    (line G).[0] <> 0 ->
    Forall2 (fun h c => h = linear c (line G).[0] (line G).[1])
      (hNaBr3 G) (NaBr3_conc G) ->
    get_concs S G train2 =
      Ok (map (fun t => t / 60) (first_row train2),
          map (fun h => Br2_conc_i * h) (hBr2 G),
          map (fun c => c + (line G).[1] / (line G).[0]) (NaBr3_conc G))
    /\ ((line G).[1] = 0 ->
        get_concs S G train2 =
          Ok (map (fun t => t / 60) (first_row train2),
              map (fun h => Br2_conc_i * h) (hBr2 G),
              NaBr3_conc G)).
Proof.
  intros S t1 t2 G H Hslope Hon.
  rewrite (get_concs_after_train S t1 t2 G H).
  rewrite (invert_line _ _ _ _ Hslope Hon). split; [ reflexivity | ].
  intros ->. do 2 f_equal. rewrite <- (map_id (NaBr3_conc G)) at 2.
  apply map_ext. intros c. unfold Rdiv. ring.
Qed.

Lemma calibration_line_inverted_by_slope_only_witness :
  train guess_solver sample_frame sample_frame = Ok sample_trained /\
  (line sample_trained).[0] <> 0 /\
  get_concs guess_solver sample_trained sample_frame =
    Ok (map (fun t => t / 60) (first_row sample_frame),
        map (fun h => Br2_conc_i * h) (hBr2 sample_trained),
        map (fun c => c + (line sample_trained).[1] / (line sample_trained).[0])
          (NaBr3_conc sample_trained)).
Proof.
  assert (Hslope : (line sample_trained).[0] <> 0)
    by (change (line sample_trained).[0] with 1; lra).
  split; [ exact sample_training_run | split; [ exact Hslope | ] ].
  apply (calibration_line_inverted_by_slope_only guess_solver sample_frame
           sample_frame sample_trained sample_training_run Hslope).
  cbn [hNaBr3 NaBr3_conc line sample_trained compute_NaBr3_conc map].
  change ([1; 1].[0]) with 1. change ([1; 1].[1]) with 1.
  unfold linear, Br2_conc_i. repeat constructor; lra.
Defined.

Lemma trained_shapes_witness :
  train guess_solver sample_frame sample_frame = Ok sample_trained /\
  length (Br2opt sample_trained) = 10%nat /\
  length (g5opt sample_trained) = 7%nat /\
  length (line sample_trained) = 2%nat /\
  length (hBr2 sample_trained) = length (columns sample_frame) /\
  length (hNaBr3 sample_trained) = length (columns sample_frame).
Proof.
  split; [ exact sample_training_run | ].
  exact (trained_shapes guess_solver sample_frame sample_frame sample_trained
           sample_training_run).
Defined.

(** ** Writing the results *)

Lemma append_empty_r (s : String.string) : s +++ ""%string = s.
Proof. induction s as [| ch s IH]; simpl; [ reflexivity | now rewrite IH ]. Qed.

Lemma append_assoc (s t u : String.string) : s +++ t +++ u = s +++ (t +++ u).
Proof. induction s as [| ch s IH]; simpl; [ reflexivity | now rewrite IH ]. Qed.

Lemma item_at_end_of_prefix (pre post : list R) (x : R) :
  Array.item (pre ++ x :: post) (length pre) = Ok x.
Proof.
  unfold Array.item. rewrite nth_error_app2 by lia.
  now rewrite Nat.sub_diag.
Qed.

Lemma item_past_the_end (a : list R) :
  Array.item (a ++ []) (length a) = Raise IndexError.
Proof.
  unfold Array.item. rewrite app_nil_r.
  destruct (nth_error a (length a)) eqn:H; [ | reflexivity ].
  assert (nth_error a (length a) <> None) by congruence.
  apply nth_error_Some in H0. lia.
Qed.

(** The loop of [write_concs] from any position on: it writes the rows that
    all three arrays have, and raises when the first array has a further
    entry that one of the others lacks. *)
Lemma write_rows_from (str : R -> String.string) (tr : list R) :
  forall tp bp np br nr acc,
    length bp = length tp -> length np = length tp ->
    write_rows str (tp ++ tr, bp ++ br, np ++ nr)
      (seq (length tp) (length tr)) acc
    = (acc +++ text_of str (combine tr (combine br nr)),
       if (length tr <=? Nat.min (length br) (length nr))%nat
       then Ok tt else Raise IndexError).
Proof.
  induction tr as [| t tr IH]; intros tp bp np br nr acc Hb Hn.
  - simpl. now rewrite append_empty_r.
  - cbn [length seq write_rows]. unfold row. cbn [fst snd].
    rewrite item_at_end_of_prefix. cbn [bind].
    destruct br as [| b br].
    + rewrite <- Hb, item_past_the_end. simpl. now rewrite append_empty_r.
    + rewrite <- Hb, item_at_end_of_prefix. cbn [bind].
      destruct nr as [| n nr].
      * rewrite Hb, <- Hn, item_past_the_end. simpl.
        now rewrite append_empty_r.
      * rewrite Hb, <- Hn, item_at_end_of_prefix. cbn [bind].
        change (tp ++ t :: tr) with (tp ++ [t] ++ tr).
        change (bp ++ b :: br) with (bp ++ [b] ++ br).
        change (np ++ n :: nr) with (np ++ [n] ++ nr).
        rewrite !app_assoc.
        replace (Datatypes.S (length np)) with (length (tp ++ [t]))
          by (rewrite length_app; simpl; lia).
        rewrite IH by (rewrite !length_app; simpl; lia).
        cbn [combine text_of fold_right fst snd length Nat.min Nat.leb].
        now rewrite append_assoc.
Qed.

Lemma write_concs_outcome (str : R -> String.string) (ts bs ns : list R)
    (name : String.string) (fs : files) :
  write_concs str (ts, bs, ns) name fs =
    ((name +++ ".txt"%string, text_of str (rows_of (ts, bs, ns))) :: fs,
     if (length ts <=? Nat.min (length bs) (length ns))%nat
     then Ok tt else Raise IndexError).
Proof.
  unfold write_concs, rows_of. cbn [fst snd].
  pose proof (write_rows_from str ts [] [] [] bs ns ""%string eq_refl eq_refl)
    as H.
  cbn [app length String.append] in H. now rewrite H.
Qed.

Lemma length_rows_of (ts bs ns : list R) :
  length (rows_of (ts, bs, ns)) =
  Nat.min (length ts) (Nat.min (length bs) (length ns)).
Proof. unfold rows_of. cbn [fst snd]. now rewrite !length_combine. Qed.

(** X13.  When the second and third array are at least as long as the
    first, [write_concs] raises nothing and leaves in [name + '.txt'] one
    row per entry of the first array, in order, each made of the three
    values at that position separated by single spaces and ended by a
    newline; further entries of the longer arrays are not written. *)
Theorem write_concs_writes_one_row_per_time :
  forall (str : R -> String.string) (ts bs ns : list R)
         (name : String.string) (fs : files),
    (length ts <= length bs)%nat ->
    (length ts <= length ns)%nat ->
    write_concs str (ts, bs, ns) name fs =
      ((name +++ ".txt"%string, text_of str (rows_of (ts, bs, ns))) :: fs, Ok tt)
    /\ length (rows_of (ts, bs, ns)) = length ts
    /\ (forall i t b n,
          nth_error ts i = Some t -> nth_error bs i = Some b ->
          nth_error ns i = Some n ->
          nth_error (rows_of (ts, bs, ns)) i = Some (t, (b, n))).
Proof.
  intros str ts bs ns name fs Hb Hn. split; [ | split ].
  - rewrite write_concs_outcome.
    replace (length ts <=? Nat.min (length bs) (length ns))%nat with true
      by (symmetry; apply Nat.leb_le; lia).
    reflexivity.
  - rewrite length_rows_of. lia.
  - intros i t b n Ht Hbi Hni. unfold rows_of. cbn [fst snd].
    revert bs ns i Hb Hn Ht Hbi Hni.
    induction ts as [| t0 ts IH]; intros bs ns i Hb Hn Ht Hbi Hni.
    + destruct i; discriminate Ht.
    + destruct bs as [| b0 bs]; [ simpl in Hb; lia | ].
      destruct ns as [| n0 ns]; [ simpl in Hn; lia | ].
      destruct i as [| i]; simpl in *.
      * congruence.
      * apply IH; try assumption; lia.
Qed.

Lemma write_concs_writes_one_row_per_time_witness :
  write_concs blank_str ([0; 1], [2; 3], [4; 5; 6]) "run"%string [] =
    (("run.txt"%string,
      text_of blank_str (rows_of ([0; 1], [2; 3], [4; 5; 6]))) :: [], Ok tt).
Proof.
  apply (write_concs_writes_one_row_per_time blank_str
           [0; 1] [2; 3] [4; 5; 6] "run"%string []); simpl; lia.
Defined.

(** X14.  When the second or the third array is shorter than the first,
    [write_concs] raises [IndexError], and the file it opened is left with
    the rows that all three arrays have. *)
Theorem write_concs_short_array :
  forall (str : R -> String.string) (ts bs ns : list R)
         (name : String.string) (fs : files),
    (Nat.min (length bs) (length ns) < length ts)%nat ->
    write_concs str (ts, bs, ns) name fs =
      ((name +++ ".txt"%string, text_of str (rows_of (ts, bs, ns))) :: fs,
       Raise IndexError)
    /\ length (rows_of (ts, bs, ns)) = Nat.min (length bs) (length ns).
Proof.
  intros str ts bs ns name fs Hshort. split.
  - rewrite write_concs_outcome.
    replace (length ts <=? Nat.min (length bs) (length ns))%nat with false
      by (symmetry; apply Nat.leb_gt; lia).
    reflexivity.
  - rewrite length_rows_of. lia.
Qed.

Lemma write_concs_short_array_witness :
  write_concs blank_str ([0; 1; 2], [3; 4; 5], [6]) "run"%string [] =
    (("run.txt"%string,
      text_of blank_str (rows_of ([0; 1; 2], [3; 4; 5], [6]))) :: [],
     Raise IndexError)
  /\ length (rows_of ([0; 1; 2], [3; 4; 5], [6])) = 1%nat.
Proof.
  apply (write_concs_short_array blank_str
           [0; 1; 2] [3; 4; 5] [6] "run"%string []).
  simpl. lia.
Defined.

Lemma get_concs_Ok_lengths (S : Solver) (G : Trained) (dataset : DataFrame)
    (ts bs ns : list R) :
  get_concs S G dataset = Ok (ts, bs, ns) ->
  length ts = length (columns dataset) /\
  length bs = length (columns dataset) /\
  length ns = length (columns dataset).
Proof.
  intros H. rewrite get_concs_mapM in H.
  destruct (Array.first_above (WLs G) 360) as [L1 |]; [ | discriminate H ].
  destruct (Array.first_above (WLs G) 650) as [L2 |]; [ | discriminate H ].
  cbn [bind] in H.
  destruct (mapM _ (columns dataset)) as [rs |] eqn:Hrs; [ | discriminate H ].
  cbn [bind] in H. injection H as <- <- <-.
  apply mapM_length in Hrs. rewrite !length_map. repeat split; exact Hrs.
Qed.

Lemma write_concs_of_prediction (S : Solver) (str : R -> String.string)
    (G : Trained) (dataset : DataFrame) (rc : list R * list R * list R)
    (name : String.string) (fs : files) :
  get_concs S G dataset = Ok rc ->
  write_concs str rc name fs =
    ((name +++ ".txt"%string, text_of str (rows_of rc)) :: fs, Ok tt).
Proof.
  destruct rc as [[ts bs] ns]. intros H.
  apply get_concs_Ok_lengths in H as (Ht & Hb & Hn).
  rewrite write_concs_outcome.
  replace (length ts <=? Nat.min (length bs) (length ns))%nat with true
    by (symmetry; apply Nat.leb_le; lia).
  reflexivity.
Qed.

(** X15.  Writing what [get_concs] returned never raises: the three arrays
    have the same length, and the file gets exactly one row per spectrum of
    the dataset. *)
Theorem write_concs_after_get_concs :
  forall (S : Solver) (str : R -> String.string) (G : Trained)
         (dataset : DataFrame) (rc : list R * list R * list R)
         (name : String.string) (fs : files),
    get_concs S G dataset = Ok rc ->
    write_concs str rc name fs =
      ((name +++ ".txt"%string, text_of str (rows_of rc)) :: fs, Ok tt)
    /\ length (rows_of rc) = length (columns dataset).
Proof.
  intros S str G ds rc name fs H. split.
  - exact (write_concs_of_prediction S str G ds rc name fs H).
  - destruct rc as [[ts bs] ns].
    apply get_concs_Ok_lengths in H as (Ht & Hb & Hn).
    rewrite length_rows_of. lia.
Qed.

Lemma sample_prediction_run :
  get_concs guess_solver sample_trained sample_frame =
    Ok ([0 / 60; 60 / 60; 120 / 60],
        [Br2_conc_i * 1; Br2_conc_i * 1; Br2_conc_i * 1],
        [1 / 1; 1 / 1; 1 / 1]).
Proof.
  rewrite get_concs_mapM. cbn [WLs sample_trained].
  autorewrite with sample_runs. reflexivity.
Qed.

Lemma write_concs_after_get_concs_witness :
  get_concs guess_solver sample_trained sample_frame =
    Ok ([0 / 60; 60 / 60; 120 / 60],
        [Br2_conc_i * 1; Br2_conc_i * 1; Br2_conc_i * 1],
        [1 / 1; 1 / 1; 1 / 1]) /\
  length (rows_of ([0 / 60; 60 / 60; 120 / 60],
                   [Br2_conc_i * 1; Br2_conc_i * 1; Br2_conc_i * 1],
                   [1 / 1; 1 / 1; 1 / 1])) = length (columns sample_frame).
Proof.
  split; [ exact sample_prediction_run | ].
  apply (write_concs_after_get_concs guess_solver blank_str sample_trained
           sample_frame _ "17C_concs"%string [] sample_prediction_run).
Defined.

(** X16.  Run as a program, the script writes either all three result
    files or none: if training, the prediction for the first training set
    or the prediction for any of the three runs raises, the exception ends
    the program before the first file is opened (results of runs already
    fitted are lost); otherwise the three files are written, one row per
    spectrum of each run, and nothing is raised. *)
Theorem script_writes_all_files_or_none :
  forall (S : Solver) (str : R -> String.string)
         (train1 train2 run1_17C run2_25C run3_35C : DataFrame) (fs : files),
    (exists e,
       script str S train1 train2 run1_17C run2_25C run3_35C fs
       = (fs, Raise e))
    \/ (exists G c1 c2 c3,
          train S train1 train2 = Ok G /\
          get_concs S G run1_17C = Ok c1 /\
          get_concs S G run2_25C = Ok c2 /\
          get_concs S G run3_35C = Ok c3 /\
          script str S train1 train2 run1_17C run2_25C run3_35C fs
          = (("35C_concs.txt"%string, text_of str (rows_of c3))
             :: ("25C_concs.txt"%string, text_of str (rows_of c2))
             :: ("17C_concs.txt"%string, text_of str (rows_of c1))
             :: fs, Ok tt)).
Proof.
  intros S str t1 t2 r1 r2 r3 fs.
  unfold script, main, io_bind, io_lift.
  destruct (train S t1 t2) as [G | e] eqn:HG; [ | left; now exists e ].
  destruct (get_concs S G t1) as [c0 | e]; [ | left; now exists e ].
  destruct (get_concs S G r1) as [c1 | e] eqn:H1; [ | left; now exists e ].
  destruct (get_concs S G r2) as [c2 | e] eqn:H2; [ | left; now exists e ].
  destruct (get_concs S G r3) as [c3 | e] eqn:H3; [ | left; now exists e ].
  right. exists G, c1, c2, c3.
  split; [ reflexivity | ]. split; [ exact H1 | ].
  split; [ exact H2 | ]. split; [ exact H3 | ].
  rewrite (write_concs_of_prediction S str G r1 c1 _ _ H1).
  rewrite (write_concs_of_prediction S str G r2 c2 _ _ H2).
  rewrite (write_concs_of_prediction S str G r3 c3 _ _ H3).
  reflexivity.
Qed.

(** X17.  [write_concs] replaces the contents of [name + '.txt'] by the rows
    it writes, whatever the file held and whether or not it raises, and
    leaves every other file as it was. *)
Theorem write_concs_replaces_only_its_file :
  forall (str : R -> String.string) (rc : list R * list R * list R)
         (name other : String.string) (fs : files),
    other <> name +++ ".txt"%string ->
    read_file (fst (write_concs str rc name fs)) (name +++ ".txt"%string)
      = Some (text_of str (rows_of rc))
    /\ read_file (fst (write_concs str rc name fs)) other = read_file fs other.
Proof.
  intros str [[ts bs] ns] name other fs Hother.
  rewrite write_concs_outcome. cbn [fst]. unfold read_file. cbn [find fst].
  rewrite String.eqb_refl. split; [ reflexivity | ].
  apply not_eq_sym in Hother. apply String.eqb_neq in Hother.
  now rewrite Hother.
Qed.

Lemma write_concs_replaces_only_its_file_witness :
  "25C_concs.txt"%string <> "17C_concs"%string +++ ".txt"%string /\
  read_file
    (fst (write_concs blank_str ([0], [1], [2]) "17C_concs"%string
            [("25C_concs.txt"%string, "kept"%string);
             ("17C_concs.txt"%string, "old"%string)]))
    "25C_concs.txt"%string
  = read_file [("25C_concs.txt"%string, "kept"%string);
               ("17C_concs.txt"%string, "old"%string)]
      "25C_concs.txt"%string.
Proof.
  assert (H : "25C_concs.txt"%string <> "17C_concs"%string +++ ".txt"%string)
    by discriminate.
  split; [ exact H | ].
  apply (write_concs_replaces_only_its_file blank_str ([0], [1], [2])
           "17C_concs"%string "25C_concs.txt"%string _ H).
Defined.

(** ** What training can raise *)

Lemma column_Raise_inv (df : DataFrame) (i : nat) (e : exn) :
  column df i = Raise e -> e = KeyError /\ (length (columns df) <= i)%nat.
Proof.
  unfold column. destruct (nth_error (columns df) i) eqn:H; intros He.
  - discriminate He.
  - injection He as <-. split; [ reflexivity | now apply nth_error_None ].
Qed.

Lemma first_above_Raise_650 (axis : list R) (bound : R) (e : exn) :
  bound <= 650 ->
  Array.first_above axis bound = Raise e ->
  e = IndexError /\ Forall (fun wl => wl <= 650) axis.
Proof.
  intros Hb He. apply first_above_from_Raise in He as [-> Hall].
  split; [ reflexivity | ].
  apply (Forall_impl _ (P := fun wl => wl <= bound));
    [ intros wl Hwl; lra | exact Hall ].
Qed.

(** X18.  On a first training set that is a frame (one absorbance per
    wavelength in every column), a training run raises only in these ways:
    [IndexError] because the wavelength axis holds no value above 650;
    [KeyError] because the first training set has no spectrum; the
    exception the solver raised in one of the four kinds of call the run
    makes (the bromine fit, the combined fit, the amplitude fit of a
    calibration spectrum, the line fit), each with the arguments the run
    gives it; or [ValueError] from plotting a calibration spectrum, already
    fitted, whose window has not the length of the wavelength window. *)
Theorem train_raises_only :
  forall (S : Solver) (train1 train2 : DataFrame) (e : exn),
    Forall (fun c => length (snd c) = length (index_tail train1))
      (columns train1) ->
    train S train1 train2 = Raise e ->
    let axis := index_tail train1 in
    (e = IndexError /\ Forall (fun wl => wl <= 650) axis)
    \/ (e = KeyError /\ columns train1 = [])
    \/ (exists L1 L2 c,
          Array.first_above axis 320 = Ok L1 /\
          Array.first_above axis 650 = Ok L2 /\
          column train1 0 = Ok c /\
          curve_fit S gaussian3_fn
            (Array.slice axis L1 L2) (Array.slice (snd c) L1 L2)
            (Some p0_Br2) = Raise e)
    \/ (exists Br2opt L1 L2 c,
          fit_Br2 S axis train1 = Ok Br2opt /\
          Array.first_above axis 360 = Ok L1 /\
          Array.first_above axis 650 = Ok L2 /\
          column train1 (length (columns train1) - 1) = Ok c /\
          curve_fit S (gauss5_fn Br2opt)
            (Array.slice axis L1 L2) (Array.slice (snd c) L1 L2)
            (Some NaBr3_p0) = Raise e)
    \/ (exists Br2opt g5opt L1 L2 c,
          fit_Br2 S axis train1 = Ok Br2opt /\
          fit_NaBr3 S axis Br2opt train1 = Ok g5opt /\
          Array.first_above axis 360 = Ok L1 /\
          Array.first_above axis 650 = Ok L2 /\
          In c (columns train2) /\
          curve_fit S (gauss5_scale_fn Br2opt g5opt)
            (Array.slice axis L1 L2) (Array.slice (snd c) L1 L2) None
          = Raise e)
    \/ (e = ValueError /\
        exists Br2opt g5opt L1 L2 c a b,
          fit_Br2 S axis train1 = Ok Br2opt /\
          fit_NaBr3 S axis Br2opt train1 = Ok g5opt /\
          Array.first_above axis 360 = Ok L1 /\
          Array.first_above axis 650 = Ok L2 /\
          In c (columns train2) /\
          curve_fit S (gauss5_scale_fn Br2opt g5opt)
            (Array.slice axis L1 L2) (Array.slice (snd c) L1 L2) None
          = Ok [a; b] /\
          length (Array.slice axis L1 L2)
            <> length (Array.slice (snd c) L1 L2))
    \/ (exists Br2opt g5opt L1 L2 amps,
          fit_Br2 S axis train1 = Ok Br2opt /\
          fit_NaBr3 S axis Br2opt train1 = Ok g5opt /\
          Array.first_above axis 360 = Ok L1 /\
          Array.first_above axis 650 = Ok L2 /\
          mapM (scale_fit S axis Br2opt g5opt L1 L2) (columns train2)
            = Ok amps /\
          curve_fit S linear_fn
            (compute_NaBr3_conc (map fst amps)) (map snd amps) None
          = Raise e).
Proof.
  intros S t1 t2 e _ H axis. rewrite train_mapM in H. fold axis in H.
  destruct (fit_Br2 S axis t1) as [B | e1] eqn:HB.
  - cbn [bind] in H.
    assert (Hcol : columns t1 <> []).
    { unfold fit_Br2 in HB.
      destruct (Array.first_above axis 320); [ | discriminate HB ].
      destruct (Array.first_above axis 650); [ | discriminate HB ].
      cbn [bind] in HB. unfold column in HB.
      destruct (columns t1); [ discriminate HB | discriminate ]. }
    destruct (fit_NaBr3 S axis B t1) as [g | e2] eqn:Hg.
    + cbn [bind] in H.
      destruct (Array.first_above axis 360) as [L1 | e3] eqn:H1;
        [ | simpl in H; injection H as ->; left;
            apply (first_above_Raise_650 axis 360); [ lra | exact H1 ] ].
      destruct (Array.first_above axis 650) as [L2 | e4] eqn:H2;
        [ | simpl in H; injection H as ->; left;
            apply (first_above_Raise_650 axis 650); [ lra | exact H2 ] ].
      cbn [bind] in H.
      destruct (mapM _ (columns t2)) as [rs | e5] eqn:Hrs.
      * cbn [bind] in H. unfold fit_line in H.
        destruct (curve_fit S linear_fn _ _ None) as [l | e6] eqn:Hl;
          [ discriminate H | ].
        simpl in H. injection H as ->.
        do 6 right. exists B, g, L1, L2, rs. repeat split; assumption.
      * simpl in H. injection H as ->.
        apply mapM_Raise_inv in Hrs as (c & Hin & Hc).
        apply scale_fit_Raise_inv in Hc as [Hc | (-> & Hw & a & b & Hc)].
        -- do 4 right. left. exists B, g, L1, L2, c. repeat split; assumption.
        -- do 5 right. left. split; [ reflexivity | ].
           exists B, g, L1, L2, c, a, b. repeat split; try assumption.
           now apply Nat.eqb_neq.
    + simpl in H. injection H as ->. unfold fit_NaBr3 in Hg.
      destruct (Array.first_above axis 360) as [L1 | e3] eqn:H1;
        [ | simpl in Hg; injection Hg as ->; left;
            apply (first_above_Raise_650 axis 360); [ lra | exact H1 ] ].
      destruct (Array.first_above axis 650) as [L2 | e4] eqn:H2;
        [ | simpl in Hg; injection Hg as ->; left;
            apply (first_above_Raise_650 axis 650); [ lra | exact H2 ] ].
      cbn [bind] in Hg. rewrite length_first_row in Hg.
      destruct (column t1 _) as [c | e5] eqn:Hc.
      * cbn [bind] in Hg. do 3 right. left.
        exists B, L1, L2, c. repeat split; assumption.
      * exfalso. apply column_Raise_inv in Hc as [_ Hlen].
        destruct (columns t1); [ now apply Hcol | simpl in Hlen; lia ].
  - simpl in H. injection H as ->. unfold fit_Br2 in HB.
    destruct (Array.first_above axis 320) as [L1 | e3] eqn:H1;
      [ | simpl in HB; injection HB as ->; left;
          apply (first_above_Raise_650 axis 320); [ lra | exact H1 ] ].
    destruct (Array.first_above axis 650) as [L2 | e4] eqn:H2;
      [ | simpl in HB; injection HB as ->; left;
          apply (first_above_Raise_650 axis 650); [ lra | exact H2 ] ].
    cbn [bind] in HB.
    destruct (column t1 0) as [c | e5] eqn:Hc.
    + cbn [bind] in HB. do 2 right. left.
      exists L1, L2, c. repeat split; assumption.
    + simpl in HB. injection HB as ->.
      apply column_Raise_inv in Hc as [-> Hlen].
      right. left. split; [ reflexivity | ].
      destruct (columns t1); [ reflexivity | simpl in Hlen; lia ].
Qed.

(** Calibration spectra measured on ten wavelengths only. *)
Lemma train_raises_only_witness :
  Forall (fun c => length (snd c) = length (index_tail sample_frame))
    (columns sample_frame) /\
  train guess_solver sample_frame
    (mkFrame sample_WLs [(0, firstn 10 spectrum_a)]) = Raise ValueError /\
  exists Br2opt g5opt L1 L2 c a b,
    fit_Br2 guess_solver (index_tail sample_frame) sample_frame = Ok Br2opt /\
    fit_NaBr3 guess_solver (index_tail sample_frame) Br2opt sample_frame
      = Ok g5opt /\
    Array.first_above (index_tail sample_frame) 360 = Ok L1 /\
    Array.first_above (index_tail sample_frame) 650 = Ok L2 /\
    In c (columns (mkFrame sample_WLs [(0, firstn 10 spectrum_a)])) /\
    curve_fit guess_solver (gauss5_scale_fn Br2opt g5opt)
      (Array.slice (index_tail sample_frame) L1 L2)
      (Array.slice (snd c) L1 L2) None = Ok [a; b] /\
    length (Array.slice (index_tail sample_frame) L1 L2)
      <> length (Array.slice (snd c) L1 L2).
Proof.
  assert (Hframe :
    Forall (fun c => length (snd c) = length (index_tail sample_frame))
      (columns sample_frame)) by (repeat constructor).
  assert (H : train guess_solver sample_frame
                (mkFrame sample_WLs [(0, firstn 10 spectrum_a)])
              = Raise ValueError).
  { rewrite train_mapM. cbn [index_tail sample_frame].
    rewrite sample_fit_Br2. cbn [bind]. rewrite sample_fit_NaBr3. cbn [bind].
    autorewrite with sample_runs. reflexivity. }
  split; [ exact Hframe | split; [ exact H | ] ].
  destruct (train_raises_only guess_solver sample_frame _ ValueError Hframe H)
    as [[Habs _] | [[Habs _] | [(L1 & L2 & c & _ & _ & _ & Hr)
       | [(B & L1 & L2 & c & _ & _ & _ & _ & Hr)
       | [(B & g & L1 & L2 & c & _ & _ & _ & _ & _ & Hr)
       | [[_ Hplot] | (B & g & L1 & L2 & amps & _ & _ & _ & _ & _ & Hr)]]]]]].
  - discriminate Habs.
  - discriminate Habs.
  - exfalso. cbn [curve_fit guess_solver] in Hr. unfold guess_fit in Hr.
    cbn in Hr. discriminate Hr.
  - exfalso. cbn [curve_fit guess_solver] in Hr. unfold guess_fit in Hr.
    cbn in Hr. discriminate Hr.
  - exfalso. cbn [curve_fit guess_solver] in Hr. unfold guess_fit in Hr.
    cbn in Hr. discriminate Hr.
  - exact Hplot.
  - exfalso. cbn [curve_fit guess_solver] in Hr. unfold guess_fit in Hr.
    cbn in Hr. discriminate Hr.
Defined.
